(** * agri-nova: the farm simulation and the environmental-data endpoint

    A shallow embedding of the two API routes of the application:

    - [SimulateRoute]: the [POST] handler of the simulation endpoint and the
      scoring / recommendation pipeline behind it
      ([runComprehensiveSimulation] and the functions it calls);
    - [NasaRoute]: the [GET] handler of the environmental-data endpoint
      (src/app/api/nasaData/route.ts) and its synthetic data generator.

    Numbers.  A JavaScript [number] is modelled by [number]: an exact
    rational, one of the two infinities, or [NaN].  Arithmetic on finite
    values is exact; binary64 rounding, overflow and the sign of zero are
    outside the model, and properties are stated so that rounding does not
    decide them; the one product whose rounding matters, the base yield of
    the worked example, is also computed with primitive floats
    ([Binary64]).  [NaN] arises exactly where the source produces it
    (arithmetic on [undefined] or on an object, a string that is no numeric
    literal). *)

From Stdlib Require Import QArith Qround Qabs Lqa Lia ZArith.
From Stdlib Require Import Bool String Ascii List.
From Stdlib Require PrimFloat.
Import ListNotations.

Local Open Scope Q_scope.

(** ** Numbers *)

Inductive number : Type :=
| NaN
| PosInf
| NegInf
| Num (q : Q).

Declare Scope js_scope.
Delimit Scope js_scope with js.
Bind Scope js_scope with number.

Module JS.

Definition neg (a : number) : number :=
  match a with
  | NaN => NaN
  | PosInf => NegInf
  | NegInf => PosInf
  | Num q => Num (- q)
  end.

Definition add (a b : number) : number :=
  match a, b with
  | NaN, _ | _, NaN => NaN
  | PosInf, NegInf | NegInf, PosInf => NaN
  | PosInf, _ | _, PosInf => PosInf
  | NegInf, _ | _, NegInf => NegInf
  | Num x, Num y => Num (x + y)
  end.

Definition sub (a b : number) : number := add a (neg b).

(** An infinity times a finite [q]: [NaN] at zero, else by the sign. *)
Definition scale_inf (positive : bool) (q : Q) : number :=
  if Qeq_bool q 0 then NaN
  else if Bool.eqb positive (Qle_bool 0 q) then PosInf else NegInf.

Definition mul (a b : number) : number :=
  match a, b with
  | NaN, _ | _, NaN => NaN
  | PosInf, PosInf | NegInf, NegInf => PosInf
  | PosInf, NegInf | NegInf, PosInf => NegInf
  | PosInf, Num q | Num q, PosInf => scale_inf true q
  | NegInf, Num q | Num q, NegInf => scale_inf false q
  | Num x, Num y => Num (x * y)
  end.

(** Division by a finite non-zero constant is all the source uses when
    the divisor is a number literal; the general cases follow IEEE. *)
Definition div (a b : number) : number :=
  match a, b with
  | NaN, _ | _, NaN => NaN
  | (PosInf | NegInf), (PosInf | NegInf) => NaN
  | PosInf, Num q => if Qle_bool 0 q then PosInf else NegInf
  | NegInf, Num q => if Qle_bool 0 q then NegInf else PosInf
  | Num _, (PosInf | NegInf) => Num 0
  | Num x, Num y =>
      if Qeq_bool y 0
      then (if Qeq_bool x 0 then NaN
            else if Qle_bool 0 x then PosInf else NegInf)
      else Num (x / y)
  end.

(** [a < b]; false as soon as one side is [NaN]. *)
Definition lt (a b : number) : bool :=
  match a, b with
  | NaN, _ | _, NaN => false
  | _, NegInf => false
  | NegInf, _ => true
  | PosInf, _ => false
  | _, PosInf => true
  | Num x, Num y => negb (Qle_bool y x)
  end.

Definition gt (a b : number) : bool := lt b a.

(** [a <= b]. *)
Definition le (a b : number) : bool :=
  match a, b with
  | NaN, _ | _, NaN => false
  | NegInf, _ => true
  | _, PosInf => true
  | _, NegInf => false
  | PosInf, _ => false
  | Num x, Num y => Qle_bool x y
  end.

Definition ge (a b : number) : bool := le b a.

(** ToBoolean on a number: [NaN] and zero are falsy. *)
Definition truthy (a : number) : bool :=
  match a with
  | NaN => false
  | PosInf | NegInf => true
  | Num q => negb (Qeq_bool q 0)
  end.

(** Equality of numbers as values: rationals up to [Qeq]. *)
Definition eq (a b : number) : Prop :=
  match a, b with
  | NaN, NaN | PosInf, PosInf | NegInf, NegInf => True
  | Num x, Num y => x == y
  | _, _ => False
  end.

End JS.

Notation "a + b" := (JS.add a b) : js_scope.
Notation "a - b" := (JS.sub a b) : js_scope.
Notation "a * b" := (JS.mul a b) : js_scope.
Notation "a / b" := (JS.div a b) : js_scope.
Notation "a <? b" := (JS.lt a b) (at level 70) : js_scope.
Notation "a >? b" := (JS.gt a b) (at level 70) : js_scope.
Infix "=n=" := JS.eq (at level 70, no associativity).

Module Math.

Definition max (a b : number) : number :=
  match a, b with
  | NaN, _ | _, NaN => NaN
  | _, _ => if JS.le a b then b else a
  end.

Definition min (a b : number) : number :=
  match a, b with
  | NaN, _ | _, NaN => NaN
  | _, _ => if JS.le a b then a else b
  end.

Definition abs (a : number) : number :=
  match a with
  | NaN => NaN
  | PosInf | NegInf => PosInf
  | Num q => Num (Qabs q)
  end.

(** [Math.round]: the nearest integer, halves towards +infinity. *)
Definition round (a : number) : number :=
  match a with
  | Num q => Num (inject_Z (Qfloor (q + 0.5)))
  | _ => a
  end.

End Math.

(** ** Values read out of untyped JSON

    The simulation receives the environmental bundle as [any] and reads it
    with optional chaining.  A reading is [None] when the chain yields
    [undefined] (or [null], which behaves identically in every use the
    source makes of it, see [ToNumber_reading]). *)

Definition reading := option Q.

(** A value in a numeric context: [undefined] converts to [NaN]. *)
Definition ToNumber_reading (r : reading) : number :=
  match r with
  | Some q => Num q
  | None => NaN
  end.

(** [r || d] for a reading [r] and a number literal [d]: the default
    replaces [undefined] and zero. *)
Definition or_number (r : reading) (d : Q) : number :=
  match r with
  | Some q => if JS.truthy (Num q) then Num q else Num d
  | None => Num d
  end.

(** [s || d] for an optional string: the default replaces [undefined] and
    the empty string. *)
Definition or_string (s : option string) (d : string) : string :=
  match s with
  | Some EmptyString | None => d
  | Some s' => s'
  end.

(** Optional chaining [o?.f]. *)
Definition chain {A B : Type} (o : option A) (f : A -> option B) : option B :=
  match o with
  | Some a => f a
  | None => None
  end.

Notation "o ?. f" := (chain o f) (at level 45, left associativity).

(** ** Property lookup on an object literal

    [table[key]] on an object literal consults the literal's own
    properties and then [Object.prototype].  The inherited properties are
    functions (and, for [__proto__], an object): truthy values that
    convert to [NaN] in arithmetic. *)

Inductive value : Type :=
| VUndefined
| VNumber (n : number)
| VObject.

Definition Object_prototype : list string :=
  [ "constructor"; "hasOwnProperty"; "isPrototypeOf"; "propertyIsEnumerable";
    "toLocaleString"; "toString"; "valueOf"; "__proto__";
    "__defineGetter__"; "__defineSetter__";
    "__lookupGetter__"; "__lookupSetter__" ]%string.

Fixpoint own_property (table : list (string * Q)) (key : string) : option Q :=
  match table with
  | [] => None
  | (k, v) :: rest => if String.eqb k key then Some v else own_property rest key
  end.

Definition inherited (key : string) : bool :=
  existsb (String.eqb key) Object_prototype.

Definition get_property (table : list (string * Q)) (key : string) : value :=
  match own_property table key with
  | Some v => VNumber (Num v)
  | None => if inherited key then VObject else VUndefined
  end.

Definition value_truthy (v : value) : bool :=
  match v with
  | VUndefined => false
  | VNumber n => JS.truthy n
  | VObject => true
  end.

(** [v || d]. *)
Definition or_value (v : value) (d : Q) : value :=
  if value_truthy v then v else VNumber (Num d).

Definition ToNumber (v : value) : number :=
  match v with
  | VUndefined => NaN
  | VNumber n => n
  | VObject => NaN
  end.

(** [array.push(x)], as a function of the array's contents. *)
Definition push {A : Type} (array : list A) (x : A) : list A := array ++ [x].

(** ** Exceptions *)

Inductive Error : Type :=
| TypeError
| SyntaxError
| NetworkError.

Inductive completion (A : Type) : Type :=
| Normal (a : A)
| Throw (e : Error).

Arguments Normal {A} a.
Arguments Throw {A} e.

Definition bind {A B : Type} (c : completion A) (k : A -> completion B)
  : completion B :=
  match c with
  | Normal a => k a
  | Throw e => Throw e
  end.

Notation "x <- c ;; k" := (bind c (fun x => k))
  (at level 61, c at next level, right associativity).

Coercion Num : Q >-> number.

(** ** The environmental bundle as the simulation reads it

    [nasaData] is the parsed JSON answer of the environmental-data
    endpoint, typed [any].  Only the paths the simulation dereferences are
    represented; each level may be missing ([undefined]).  [None] at the
    top stands for [null], [undefined] or a primitive, which all make
    [nasaData?.data] undefined and [nasaData.data.drought] throw. *)

Module Json.

Record Power := { temperature2m : reading; precipitation : reading }.
Record Smap := { soilMoistureRootZone : reading; soilMoistureSurface : reading }.
Record Modis := { ndvi : reading }.
Record Drought := { droughtCategory : option string }.

Record Data := {
  power : option Power;
  smap : option Smap;
  modis : option Modis;
  drought : option Drought
}.

Record t := { data : option Data }.

End Json.

Definition any := option Json.t.

(** ** HTTP responses

    [Response.json(payload, { status })]: the status and the payload that
    is serialised.  Both routes answer either with their result or with
    an object holding an [error] field (and, on the 500 path, [details]). *)

Inductive Payload (A : Type) : Type :=
| ErrorPayload (error : string) (details : option Error)
| ResultPayload (result : A).

Arguments ErrorPayload {A} error details.
Arguments ResultPayload {A} result.

Record Response (A : Type) : Type := {
  status : Z;
  json : Payload A
}.

Arguments status {A} r.
Arguments json {A} r.

Definition Response_json {A : Type} (payload : Payload A) (status : Z)
  : Response A :=
  {| status := status; json := payload |}.

(** Whether the serialised payload has an [error] field. *)
Definition has_error_field {A : Type} (r : Response A) : bool :=
  match json r with
  | ErrorPayload _ _ => true
  | ResultPayload _ => false
  end.

(** [try { body } catch (error) { handler }]. *)
Definition try_catch {A : Type} (body : completion A) (handler : Error -> A) : A :=
  match body with
  | Normal a => a
  | Throw error => handler error
  end.

(** ** String to number ([Number(s)] on a string [s])

    The StringNumericLiteral grammar over ASCII text: surrounding white
    space, the empty text (zero), [Infinity] with an optional sign,
    unsigned hexadecimal, octal and binary integers, and decimal literals
    with optional sign, fraction and exponent.  Anything else is [NaN]. *)

Module StringNumericLiteral.

Local Open Scope char_scope.

Definition isWhiteSpace (c : ascii) : bool :=
  match c with
  | "009" | "010" | "011" | "012" | "013" | " " => true
  | _ => false
  end.

Fixpoint trimStart (cs : list ascii) : list ascii :=
  match cs with
  | c :: rest => if isWhiteSpace c then trimStart rest else cs
  | [] => []
  end.

Definition trim (cs : list ascii) : list ascii :=
  rev (trimStart (rev (trimStart cs))).

(** The value of a digit in a base up to sixteen. *)
Definition digitValue (c : ascii) : option Z :=
  let n := Z.of_nat (nat_of_ascii c) in
  if ((48 <=? n) && (n <=? 57))%Z then Some (n - 48)%Z
  else if ((97 <=? n) && (n <=? 102))%Z then Some (n - 87)%Z
  else if ((65 <=? n) && (n <=? 70))%Z then Some (n - 55)%Z
  else None.

(** Reads the longest prefix of digits of the base: the value read, the
    number of digits and the rest of the text. *)
Fixpoint digits (base : Z) (cs : list ascii) (acc : Z) (count : nat)
  : Z * nat * list ascii :=
  match cs with
  | c :: rest =>
      match digitValue c with
      | Some d =>
          if (d <? base)%Z then digits base rest (acc * base + d)%Z (S count)
          else (acc, count, cs)
      | None => (acc, count, cs)
      end
  | [] => (acc, count, cs)
  end.

(** A whole text of digits of the base, at least one. *)
Definition integerLiteral (base : Z) (cs : list ascii) : number :=
  match digits base cs 0%Z 0%nat with
  | (v, S _, []) => Num (inject_Z v)
  | _ => NaN
  end.

(** The exponent part, when there is one: [None] for a malformed one. *)
Definition exponentPart (cs : list ascii) : option Z :=
  match cs with
  | [] => Some 0%Z
  | ("e" | "E") :: rest =>
      let '(negative, rest') :=
        match rest with
        | "-" :: r => (true, r)
        | "+" :: r => (false, r)
        | _ => (false, rest)
        end in
      match digits 10 rest' 0%Z 0%nat with
      | (v, S _, []) => Some (if negative : bool then (- v)%Z else v)
      | _ => None
      end
  | _ => None
  end.

Definition unsignedDecimal (cs : list ascii) : number :=
  let '(int, intCount, rest) := digits 10 cs 0%Z 0%nat in
  let '(frac, fracCount, rest') :=
    match rest with
    | "." :: r => digits 10 r int 0%nat
    | _ => (int, 0%nat, rest)
    end in
  match (intCount + fracCount)%nat with
  | O => NaN
  | S _ =>
      match exponentPart rest' with
      | Some e => Num (inject_Z frac * Qpower 10 (e - Z.of_nat fracCount))
      | None => NaN
      end
  end.

Definition Infinity : list ascii := list_ascii_of_string "Infinity".

Definition unsignedLiteral (cs : list ascii) : number :=
  if list_eq_dec ascii_dec cs Infinity then PosInf else unsignedDecimal cs.

Definition StringToNumber (s : string) : number :=
  match trim (list_ascii_of_string s) with
  | [] => Num 0
  | "0" :: ("x" | "X") :: rest => integerLiteral 16 rest
  | "0" :: ("o" | "O") :: rest => integerLiteral 8 rest
  | "0" :: ("b" | "B") :: rest => integerLiteral 2 rest
  | "-" :: rest => JS.neg (unsignedLiteral rest)
  | "+" :: rest => unsignedLiteral rest
  | cs => unsignedLiteral cs
  end.

End StringNumericLiteral.

(** [Number(v)] for a string or [null]. *)
Definition Number (v : option string) : number :=
  match v with
  | Some s => StringNumericLiteral.StringToNumber s
  | None => Num 0
  end.

(** [Number.isFinite]. *)
Definition isFinite (n : number) : bool :=
  match n with
  | Num _ => true
  | _ => false
  end.

(** ** The environmental-data endpoint (api/nasaData) *)

Module NasaRoute.

Local Open Scope string_scope.
Local Open Scope js_scope.

(** What the handler takes from its surroundings: the clock, the sine
    function and the pseudo-random generator, whose [k]-th draw of a
    request is [Math_random k], a number in [0, 1). *)
Record World := {
  Date_now : number;
  Math_sin : number -> number;
  Math_random : nat -> Q;
  toISOString : string
}.

(** Computations that draw random numbers: the state is the number of
    draws made so far. *)
Definition Rand (A : Type) : Type := nat -> A * nat.

Definition ret {A : Type} (a : A) : Rand A := fun k => (a, k).

Definition draw_bind {A B : Type} (m : Rand A) (f : A -> Rand B) : Rand B :=
  fun k => let '(a, k') := m k in f a k'.

Notation "x <~ m ;; f" := (draw_bind m (fun x => f))
  (at level 61, m at next level, right associativity).

Record Power := {
  temperature2m : number;
  precipitation : number;
  solarRadiation : number;
  humidity : number;
  windSpeed : number
}.

Record Smap := {
  soilMoistureSurface : number;
  soilMoistureRootZone : number;
  soilTemperature : number
}.

Record Modis := { ndvi : number; evi : number; lai : number; fpar : number }.

Record Gpm := { precipitationRate : number; precipitationAccumulation : number }.

Record DroughtMonitor := {
  droughtIndex : number;
  droughtCategory : string;
  soilMoisturePercentile : number
}.

Record BaseData := {
  power : Power;
  smap : Smap;
  modis : Modis;
  gpm : Gpm;
  drought : DroughtMonitor
}.

Record SoilHealth := {
  score : number;
  moistureLevel : string;
  temperatureStatus : string;
  organicMatter : number;
  pH : number;
  nutrientLevel : string
}.

Module IrrigationNeeds.
Record t := {
  dailyRequirement : number;
  weeklyRequirement : number;
  efficiency : string;
  recommendedMethod : string;
  waterStress : string
}.
End IrrigationNeeds.

Module CropStress.
Record t := {
  overallStress : number;
  heatStress : string;
  coldStress : string;
  waterStress : string;
  vegetationHealth : string
}.
End CropStress.

Record WaterBalance := {
  inflow : number;
  outflow : number;
  netBalance : number;
  soilStorage : number;
  runoffRisk : string
}.

Record Derived := {
  soilHealth : SoilHealth;
  irrigationNeeds : IrrigationNeeds.t;
  cropStress : CropStress.t;
  waterBalance : WaterBalance
}.

Record Recommendation := {
  type : string;
  priority : string;
  action : string;
  impact : string;
  implementation : string
}.

(** [{ ...baseData, derived }]. *)
Record Data := { baseData : BaseData; derived : Derived }.

Record NasaData := {
  datasets : list string;
  data : Data;
  insights : list string;
  recommendations : list Recommendation
}.

Section Handler.

Variable world : World.

Definition random : Rand number :=
  fun k => (Num (Math_random world k), S k).

Definition getDroughtCategory (index : number) : string :=
  if index <? 0.2 then "None"
  else if index <? 0.3 then "Abnormally Dry"
  else if index <? 0.4 then "Moderate Drought"
  else if index <? 0.5 then "Severe Drought"
  else if index <? 0.6 then "Extreme Drought"
  else "Exceptional Drought".

Definition calculateSoilHealth (d : BaseData) : Rand SoilHealth :=
  let moisture := soilMoistureRootZone (smap d) in
  let temp := soilTemperature (smap d) in
  let ndvi := ndvi (modis d) in
  r1 <~ random ;;
  r2 <~ random ;;
  ret {| score :=
           Math.min 100 (moisture * 100 + (25 - Math.abs (temp - 20)) * 2
                         + ndvi * 50);
         moistureLevel :=
           if moisture >? 0.3 then "Optimal"
           else if moisture >? 0.2 then "Moderate" else "Low";
         temperatureStatus :=
           if temp >? 25 then "Hot"
           else if temp <? 15 then "Cold" else "Optimal";
         organicMatter := 2.5 + r1 * 1.5;
         pH := 6.2 + r2 * 0.8;
         nutrientLevel := "Moderate" |}.

Definition calculateIrrigationNeeds (d : BaseData) : IrrigationNeeds.t :=
  let precipitation := precipitation (power d) in
  let soilMoisture := soilMoistureSurface (smap d) in
  let temperature := temperature2m (power d) in
  let evapotranspiration := temperature * 0.1 + 2 in
  let waterDeficit := evapotranspiration - precipitation in
  let irrigationRequired := Math.max 0 (waterDeficit * 0.8) in
  {| IrrigationNeeds.dailyRequirement := irrigationRequired;
     IrrigationNeeds.weeklyRequirement := irrigationRequired * 7;
     IrrigationNeeds.efficiency :=
       if soilMoisture >? 0.25 then "High" else "Moderate";
     IrrigationNeeds.recommendedMethod :=
       if irrigationRequired >? 5 then "Drip Irrigation" else "Sprinkler";
     IrrigationNeeds.waterStress :=
       if waterDeficit >? 3 then "High"
       else if waterDeficit >? 1 then "Moderate" else "Low" |}.

Definition calculateCropStress (d : BaseData) : CropStress.t :=
  let ndvi := ndvi (modis d) in
  let temperature := temperature2m (power d) in
  let soilMoisture := soilMoistureRootZone (smap d) in
  let stressScore : number := 0 in
  let stressScore :=
    if temperature >? 30 then stressScore + 20 else stressScore in
  let stressScore :=
    if temperature <? 10 then stressScore + 15 else stressScore in
  let stressScore :=
    if soilMoisture <? 0.2 then stressScore + 25 else stressScore in
  let stressScore :=
    if ndvi <? 0.5 then stressScore + 20 else stressScore in
  {| CropStress.overallStress := stressScore;
     CropStress.heatStress :=
       if temperature >? 30 then "High"
       else if temperature >? 25 then "Moderate" else "Low";
     CropStress.coldStress :=
       if temperature <? 10 then "High"
       else if temperature <? 15 then "Moderate" else "Low";
     CropStress.waterStress :=
       if soilMoisture <? 0.2 then "High"
       else if soilMoisture <? 0.25 then "Moderate" else "Low";
     CropStress.vegetationHealth :=
       if ndvi >? 0.7 then "Excellent"
       else if ndvi >? 0.5 then "Good" else "Poor" |}.

Definition calculateWaterBalance (d : BaseData) : WaterBalance :=
  let precipitation := precipitation (power d) in
  let evapotranspiration := temperature2m (power d) * 0.1 + 2 in
  let soilMoisture := soilMoistureSurface (smap d) in
  {| inflow := precipitation;
     outflow := evapotranspiration;
     netBalance := precipitation - evapotranspiration;
     soilStorage := soilMoisture * 100;
     runoffRisk :=
       if precipitation >? 20 then "High"
       else if precipitation >? 10 then "Moderate" else "Low" |}.

Definition generateInsights (d : BaseData) (soilHealth : SoilHealth)
  (irrigationNeeds : IrrigationNeeds.t) (cropStress : CropStress.t)
  : list string :=
  let insights : list string := [] in
  let insights :=
    if temperature2m (power d) >? 28 then
      push insights "High temperatures detected - consider shade management and increased irrigation"
    else insights in
  let insights :=
    if soilMoistureRootZone (smap d) <? 0.25 then
      push insights "Soil moisture is below optimal levels - irrigation recommended"
    else insights in
  let insights :=
    if ndvi (modis d) >? 0.7 then
      push insights "Vegetation health is excellent - current management practices are effective"
    else insights in
  let insights :=
    if IrrigationNeeds.dailyRequirement irrigationNeeds >? 5 then
      push insights "High irrigation demand detected - monitor water usage efficiency"
    else insights in
  let insights :=
    if CropStress.overallStress cropStress >? 50 then
      push insights "Crop stress levels are elevated - review management practices"
    else insights in
  insights.

Definition generateRecommendations (d : BaseData) (soilHealth : SoilHealth)
  (irrigationNeeds : IrrigationNeeds.t) : list Recommendation :=
  let recommendations : list Recommendation := [] in
  let recommendations :=
    if String.eqb (moistureLevel soilHealth) "Low" then
      push recommendations
        {| type := "Irrigation";
           priority := "High";
           action := "Increase irrigation frequency";
           impact := "Improve soil moisture and crop yield";
           implementation := "Apply 2-3mm daily for next 5 days" |}
    else recommendations in
  let recommendations :=
    if IrrigationNeeds.dailyRequirement irrigationNeeds >? 3 then
      push recommendations
        {| type := "Water Management";
           priority := "Medium";
           action := "Optimize irrigation timing";
           impact := "Reduce water waste and improve efficiency";
           implementation := "Irrigate during early morning hours" |}
    else recommendations in
  let recommendations :=
    if temperature2m (power d) >? 30 then
      push recommendations
        {| type := "Heat Management";
           priority := "High";
           action := "Implement heat stress mitigation";
           impact := "Protect crops from heat damage";
           implementation := "Increase irrigation and consider shade cloth" |}
    else recommendations in
  recommendations.

(** The object literal [baseData]: its initialisers run in source
    order, each [Math.random()] taking the next draw. *)
Definition generateBaseData : Rand BaseData :=
  let temperature2m' := 22.5 + Math_sin world (Date_now world / 1000000) * 5 in
  precipitation' <~ random ;;
  solarRadiation' <~ random ;;
  humidity' <~ random ;;
  windSpeed' <~ random ;;
  soilMoistureSurface' <~ random ;;
  soilMoistureRootZone' <~ random ;;
  soilTemperature' <~ random ;;
  ndvi' <~ random ;;
  evi' <~ random ;;
  lai' <~ random ;;
  fpar' <~ random ;;
  precipitationRate' <~ random ;;
  precipitationAccumulation' <~ random ;;
  droughtIndex' <~ random ;;
  droughtCategory' <~ random ;;
  soilMoisturePercentile' <~ random ;;
  ret {| power :=
           {| temperature2m := temperature2m';
              precipitation := 15.2 + precipitation' * 10;
              solarRadiation := 180 + solarRadiation' * 50;
              humidity := 65 + humidity' * 20;
              windSpeed := 3.2 + windSpeed' * 2 |};
         smap :=
           {| soilMoistureSurface := 0.32 + soilMoistureSurface' * 0.1;
              soilMoistureRootZone := 0.28 + soilMoistureRootZone' * 0.08;
              soilTemperature := 18.5 + soilTemperature' * 3 |};
         modis :=
           {| ndvi := 0.65 + ndvi' * 0.15;
              evi := 0.45 + evi' * 0.1;
              lai := 2.8 + lai' * 0.5;
              fpar := 0.72 + fpar' * 0.1 |};
         gpm :=
           {| precipitationRate := 2.1 + precipitationRate' * 1.5;
              precipitationAccumulation :=
                45.3 + precipitationAccumulation' * 20 |};
         drought :=
           {| droughtIndex := 0.3 + droughtIndex' * 0.4;
              droughtCategory :=
                getDroughtCategory (0.3 + droughtCategory' * 0.4);
              soilMoisturePercentile :=
                45 + soilMoisturePercentile' * 30 |} |}.

Definition fetchComprehensiveNasaData (lat lon : number) : Rand NasaData :=
  d <~ generateBaseData ;;
  soilHealth' <~ calculateSoilHealth d ;;
  let irrigationNeeds' := calculateIrrigationNeeds d in
  let cropStress' := calculateCropStress d in
  let waterBalance' := calculateWaterBalance d in
  ret {| datasets :=
           ["NASA POWER (Weather & Climate)";
            "SMAP (Soil Moisture)";
            "MODIS (Vegetation Health)";
            "GPM (Precipitation)";
            "U.S. Drought Monitor"];
         data :=
           {| baseData := d;
              derived :=
                {| soilHealth := soilHealth';
                   irrigationNeeds := irrigationNeeds';
                   cropStress := cropStress';
                   waterBalance := waterBalance' |} |};
         insights := generateInsights d soilHealth' irrigationNeeds' cropStress';
         recommendations := generateRecommendations d soilHealth' irrigationNeeds' |}.

End Handler.

(** *** The handler *)

Definition URLSearchParams := list (string * string).

(** [searchParams.get(name)]: the first value of the name, else [null]. *)
Fixpoint get (searchParams : URLSearchParams) (name : string) : option string :=
  match searchParams with
  | [] => None
  | (k, v) :: rest => if String.eqb k name then Some v else get rest name
  end.

(** The request, through the only thing the handler reads of it:
    [new URL(request.url).searchParams]. *)
Record Request := { searchParams : URLSearchParams }.

(** [!s] for a string or [null]. *)
Definition falsy (s : option string) : bool :=
  match s with
  | None | Some EmptyString => true
  | Some _ => false
  end.

Record Location := { lat : number; lon : number }.

Module Bundle.
Record t := {
  source : string;
  location : Location;
  timestamp : string;
  datasets : list string;
  data : Data;
  insights : list string;
  recommendations : list Recommendation
}.
End Bundle.

Definition GET (world : World) (request : Request) : Response Bundle.t :=
  let latitude := get (searchParams request) "lat" in
  let longitude := get (searchParams request) "lon" in
  let dataset :=
    match get (searchParams request) "dataset" with
    | Some d => d
    | None => "comprehensive"
    end in
  if falsy latitude || falsy longitude then
    Response_json (ErrorPayload "Missing required query params: lat, lon" None) 400
  else
    try_catch
      (nasaData <-
         Normal (fst (fetchComprehensiveNasaData world
                        (Number latitude) (Number longitude) 0%nat)) ;;
       Normal (Response_json (ResultPayload
         {| Bundle.source := "NASA Multi-Dataset Integration";
            Bundle.location :=
              {| lat := Number latitude; lon := Number longitude |};
            Bundle.timestamp := toISOString world;
            Bundle.datasets := datasets nasaData;
            Bundle.data := data nasaData;
            Bundle.insights := insights nasaData;
            Bundle.recommendations := recommendations nasaData |}) 200))
      (fun error =>
         Response_json (ErrorPayload "Failed to fetch NASA data" (Some error)) 500).

(** *** The answer as a client reads it

    [JSON.stringify] writes a number that is not finite as [null]; the
    simulation then finds no reading there. *)
Definition reading_of (n : number) : reading :=
  match n with
  | Num q => Some q
  | _ => None
  end.

Definition parsed (r : Response Bundle.t) : any :=
  match json r with
  | ErrorPayload _ _ => Some {| Json.data := None |}
  | ResultPayload b =>
      let d := baseData (Bundle.data b) in
      Some {| Json.data := Some
        {| Json.power := Some
             {| Json.temperature2m := reading_of (temperature2m (power d));
                Json.precipitation := reading_of (precipitation (power d)) |};
           Json.smap := Some
             {| Json.soilMoistureRootZone :=
                  reading_of (soilMoistureRootZone (smap d));
                Json.soilMoistureSurface :=
                  reading_of (soilMoistureSurface (smap d)) |};
           Json.modis := Some {| Json.ndvi := reading_of (ndvi (modis d)) |};
           Json.drought := Some
             {| Json.droughtCategory := Some (droughtCategory (drought d)) |} |} |}
  end.

End NasaRoute.

(** ** The simulation endpoint (api/simulate) *)

Module SimulateRoute.

Import Json.
Local Open Scope string_scope.
Local Open Scope js_scope.

(** [PlayerChoices].  A numeric field holds the field's value in a
    numeric context, the only way the source uses it ([undefined] is
    [NaN] there); an optional string is [None] when [undefined]. *)
Record PlayerChoices := {
  irrigationMmPerDay : number;
  fertilizerKgPerHa : number;
  livestockDensityPerHa : number;
  cropType : option string;
  soilType : option string;
  farmingMethod : option string
}.

Inductive Priority := High | Medium | Low.

Record Recommendation := {
  category : string;
  priority : Priority;
  action : string;
  impact : string;
  implementation : string
}.

Record ComparisonData := {
  baseline : number;
  current : number;
  improvement : number;
  benchmark : string
}.

Module LivestockAnalysis.
Record t := {
  soilCompaction : number;
  nutrientCycling : number;
  waterConsumption : number;
  greenhouseGasEmissions : number;
  benefits : list string;
  concerns : list string
}.
End LivestockAnalysis.

Record IrrigationAnalysis := {
  efficiency : number;
  waterStress : string;
  optimalTiming : string;
  recommendedMethod : string;
  waterSavings : number
}.

Record SoilHealthMetrics := {
  organicMatter : number;
  pH : number;
  nutrientLevel : string;
  moistureRetention : number;
  compactionRisk : string
}.

Record SimulationResult := {
  yieldScore : number;
  sustainabilityScore : number;
  soilHealthScore : number;
  waterEfficiencyScore : number;
  carbonFootprint : number;
  economicViability : number;
  insights : list string;
  recommendations : list Recommendation;
  comparison : ComparisonData;
  livestockImpact : LivestockAnalysis.t;
  irrigationAnalysis : IrrigationAnalysis;
  soilHealthMetrics : SoilHealthMetrics
}.

(** The object of unrounded scores handed to the two generators. *)
Module Scores.
Record t := {
  yieldScore : number;
  sustainabilityScore : number;
  soilHealthScore : number;
  waterEfficiencyScore : number
}.
End Scores.

Module IrrigationImpact.
Record t := { yieldBoost : number; waterEfficiency : number }.
End IrrigationImpact.

Module FertilizerImpact.
Record t := { yieldBoost : number; soilImpact : number }.
End FertilizerImpact.

Module LivestockImpact.
Record t := { yieldReduction : number; soilCompaction : number }.
End LivestockImpact.

Definition cropMultipliers : list (string * Q) :=
  [("Corn", 100%Q); ("Wheat", 80%Q); ("Soybeans", 90%Q); ("Rice", 85%Q)].

Definition soilMultipliers : list (string * Q) :=
  [("Loam", 1.0%Q); ("Clay", 0.8%Q); ("Sand", 0.7%Q); ("Silt", 0.9%Q)].

Definition soilNutrientRetention : list (string * Q) :=
  [("Loam", 0.8%Q); ("Clay", 0.9%Q); ("Sand", 0.5%Q); ("Silt", 0.7%Q)].

Definition calculateBaseYield (cropType soilType : string) (nasaData : any)
  : number :=
  let baseYield := or_value (get_property cropMultipliers cropType) 100 in
  let soilFactor := or_value (get_property soilMultipliers soilType) 1.0 in
  let weatherFactor : number :=
    if ToNumber_reading (nasaData ?. data ?. power ?. temperature2m) >? 25
    then 0.9 else 1.1 in
  ToNumber baseYield * ToNumber soilFactor * weatherFactor.

Definition calculateIrrigationImpact (irrigationMm : number) (nasaData : any)
  : IrrigationImpact.t :=
  let optimalIrrigation : number := 5 in
  let nasaSoilMoisture :=
    or_number (nasaData ?. data ?. smap ?. soilMoistureRootZone) 0.3 in
  let yieldBoost : number :=
    if irrigationMm >? 0 then
      let efficiency : number := if nasaSoilMoisture >? 0.25 then 0.8 else 0.6 in
      Math.min (irrigationMm * 2 * efficiency) 20
    else 0 in
  let waterEfficiency : number :=
    if irrigationMm >? optimalIrrigation
    then Math.max 0.5 (1 - (irrigationMm - optimalIrrigation) * 0.1)
    else 1.0 in
  {| IrrigationImpact.yieldBoost := yieldBoost;
     IrrigationImpact.waterEfficiency := waterEfficiency |}.

Definition calculateFertilizerImpact (fertilizerKg : number) (soilType : string)
  : FertilizerImpact.t :=
  let retention := or_value (get_property soilNutrientRetention soilType) 0.8 in
  let yieldBoost := Math.min (fertilizerKg * 0.5 * ToNumber retention) 15 in
  let soilImpact : number :=
    if fertilizerKg >? 20 then (-5)%Q
    else if fertilizerKg >? 10 then (-2)%Q else 0 in
  {| FertilizerImpact.yieldBoost := yieldBoost;
     FertilizerImpact.soilImpact := soilImpact |}.

Definition calculateLivestockImpact (density : number) (nasaData : any)
  : LivestockImpact.t :=
  let yieldReduction := density * 0.5 in
  let soilCompaction := density * 2 in
  {| LivestockImpact.yieldReduction := yieldReduction;
     LivestockImpact.soilCompaction := soilCompaction |}.

Definition calculateSustainabilityScore (choices : PlayerChoices)
  (nasaData : any) : number :=
  let score : number := 100 in
  let score :=
    if irrigationMmPerDay choices >? 8 then score - 15
    else if irrigationMmPerDay choices >? 5 then score - 8
    else score in
  let score :=
    if fertilizerKgPerHa choices >? 30 then score - 20
    else if fertilizerKgPerHa choices >? 20 then score - 10
    else score in
  let score :=
    if livestockDensityPerHa choices >? 5 then score - 10
    else if livestockDensityPerHa choices >? 3 then score - 5
    else score in
  let score :=
    if ToNumber_reading (nasaData ?. data ?. modis ?. ndvi) >? 0.7
    then score + 5 else score in
  let score :=
    if ToNumber_reading (nasaData ?. data ?. smap ?. soilMoistureRootZone) >? 0.3
    then score + 3 else score in
  Math.max 0 (Math.min 100 score).

Definition calculateSoilHealthScore (choices : PlayerChoices)
  (nasaData : any) : number :=
  let score : number := 80 in
  let score :=
    if fertilizerKgPerHa choices >? 25 then score - 10
    else if fertilizerKgPerHa choices <? 5 then score - 5
    else score in
  let score := score - livestockDensityPerHa choices * 2 in
  let score :=
    if irrigationMmPerDay choices >? 10 then score - 8 else score in
  let soilMoisture :=
    or_number (nasaData ?. data ?. smap ?. soilMoistureRootZone) 0.3 in
  let score :=
    if soilMoisture >? 0.3 then score + 5
    else if soilMoisture <? 0.2 then score - 10
    else score in
  Math.max 0 (Math.min 100 score).

Definition calculateWaterEfficiencyScore (irrigationMm : number)
  (nasaData : any) : number :=
  let optimalRange_min : number := 3 in
  let optimalRange_max : number := 7 in
  let nasaPrecipitation :=
    or_number (nasaData ?. data ?. power ?. precipitation) 15 in
  let score : number := 100 in
  let score :=
    if irrigationMm <? optimalRange_min
    then score - (optimalRange_min - irrigationMm) * 5
    else if irrigationMm >? optimalRange_max
    then score - (irrigationMm - optimalRange_max) * 8
    else score in
  let precipitationMatch := Math.abs (irrigationMm - nasaPrecipitation / 30) in
  let score := if precipitationMatch <? 2 then score + 10 else score in
  Math.max 0 (Math.min 100 score).

Definition calculateCarbonFootprint (choices : PlayerChoices) : number :=
  let footprint : number := 50 in
  let footprint := footprint + fertilizerKgPerHa choices * 2 in
  let footprint := footprint + irrigationMmPerDay choices * 365 * 0.1 in
  let footprint := footprint + livestockDensityPerHa choices * 15 in
  Math.round footprint.

Definition calculateEconomicViability (choices : PlayerChoices)
  (yieldScore : number) : number :=
  let revenue := yieldScore * 0.5 in
  let costs :=
    fertilizerKgPerHa choices * 0.8
    + irrigationMmPerDay choices * 365 * 0.05
    + livestockDensityPerHa choices * 20 in
  Math.round (Math.max 0 (revenue - costs)).

(** [nasaData.data.drought.droughtCategory], without optional chaining:
    a [TypeError] as soon as one of the three objects is missing. *)
Definition droughtCategory_of (nasaData : any) : completion (option string) :=
  match nasaData with
  | None => Throw TypeError
  | Some n =>
      match data n with
      | None => Throw TypeError
      | Some d =>
          match drought d with
          | None => Throw TypeError
          | Some dr => Normal (droughtCategory dr)
          end
      end
  end.

(** A value interpolated into a template literal. *)
Definition interpolate (s : option string) : string :=
  match s with
  | Some s' => s'
  | None => "undefined"
  end.

(** [v !== "None"]. *)
Definition differs_from_None (v : option string) : bool :=
  match v with
  | Some s => negb (String.eqb s "None")
  | None => true
  end.

Definition generateComprehensiveInsights (choices : PlayerChoices)
  (nasaData : any) (scores : Scores.t) : completion (list string) :=
  let insights : list string := [] in
  let insights :=
    if irrigationMmPerDay choices >? 8 then
      push insights "High irrigation levels detected - consider water conservation strategies"
    else if irrigationMmPerDay choices <? 3 then
      push insights "Low irrigation may limit crop growth - monitor soil moisture closely"
    else insights in
  let insights :=
    if fertilizerKgPerHa choices >? 25 then
      push insights "High fertilizer use may cause nutrient runoff and soil degradation"
    else if fertilizerKgPerHa choices <? 10 then
      push insights "Consider soil testing to optimize fertilizer application"
    else insights in
  let insights :=
    if livestockDensityPerHa choices >? 4 then
      push insights "High livestock density increases soil compaction risk"
    else if livestockDensityPerHa choices >? 0 then
      push insights "Livestock can provide natural fertilizer through manure"
    else insights in
  insights <-
    (if differs_from_None (nasaData ?. data ?. drought ?. droughtCategory) then
       c <- droughtCategory_of nasaData ;;
       Normal (push insights
         ("Drought conditions detected (" ++ interpolate c
          ++ ") - prioritize water conservation"))
     else Normal insights) ;;
  let insights :=
    if ToNumber_reading (nasaData ?. data ?. modis ?. ndvi) >? 0.7 then
      push insights "Excellent vegetation health detected - current practices are effective"
    else insights in
  Normal insights.

Definition generateDetailedRecommendations (choices : PlayerChoices)
  (nasaData : any) (scores : Scores.t) : list Recommendation :=
  let recommendations : list Recommendation := [] in
  let recommendations :=
    if Scores.waterEfficiencyScore scores <? 70 then
      push recommendations
        {| category := "Water Management";
           priority := High;
           action := "Optimize irrigation schedule";
           impact := "Improve water efficiency by 15-20%";
           implementation := "Use soil moisture sensors and irrigate during early morning" |}
    else recommendations in
  let recommendations :=
    if fertilizerKgPerHa choices >? 20 then
      push recommendations
        {| category := "Nutrient Management";
           priority := Medium;
           action := "Reduce fertilizer application";
           impact := "Lower costs and reduce environmental impact";
           implementation := "Conduct soil test and apply fertilizer based on crop needs" |}
    else recommendations in
  let recommendations :=
    if livestockDensityPerHa choices >? 3 then
      push recommendations
        {| category := "Livestock Management";
           priority := Medium;
           action := "Implement rotational grazing";
           impact := "Reduce soil compaction and improve pasture health";
           implementation := "Rotate livestock every 7-14 days to allow pasture recovery" |}
    else recommendations in
  recommendations.

Definition generateComparisonData (choices : PlayerChoices)
  (yieldScore : number) : ComparisonData :=
  let baselineYield : number := 100 in
  let improvement := ((yieldScore - baselineYield) / baselineYield) * 100 in
  {| baseline := baselineYield;
     current := yieldScore;
     improvement := Math.round improvement;
     benchmark :=
       if improvement >? 10 then "Above Average"
       else if improvement >? 0 then "Average" else "Below Average" |}.

Definition analyzeLivestockEffects (density : number) (nasaData : any)
  : LivestockAnalysis.t :=
  {| LivestockAnalysis.soilCompaction := density * 15;
     LivestockAnalysis.nutrientCycling := density * 8;
     LivestockAnalysis.waterConsumption := density * 50;
     LivestockAnalysis.greenhouseGasEmissions := density * 12;
     LivestockAnalysis.benefits :=
       if density >? 0 then
         ["Natural fertilizer through manure";
          "Increased soil organic matter";
          "Diversified income streams"]
       else [];
     LivestockAnalysis.concerns :=
       if density >? 3 then
         ["Increased soil compaction";
          "Higher water consumption";
          "Potential overgrazing"]
       else [] |}.

Definition analyzeIrrigationEffects (irrigationMm : number) (nasaData : any)
  : IrrigationAnalysis :=
  let nasaSoilMoisture :=
    or_number (nasaData ?. data ?. smap ?. soilMoistureSurface) 0.3 in
  {| efficiency := if nasaSoilMoisture >? 0.25 then 85 else 70;
     waterStress :=
       if irrigationMm >? 8 then "High"
       else if irrigationMm >? 5 then "Moderate" else "Low";
     optimalTiming := "Early morning (6-8 AM)";
     recommendedMethod :=
       if irrigationMm >? 6 then "Drip Irrigation" else "Sprinkler System";
     waterSavings := if irrigationMm >? 7 then 20 else 0 |}.

Definition analyzeSoilHealth (choices : PlayerChoices) (nasaData : any)
  : SoilHealthMetrics :=
  let nasaSoilMoisture :=
    or_number (nasaData ?. data ?. smap ?. soilMoistureRootZone) 0.3 in
  {| organicMatter :=
       2.5 + (livestockDensityPerHa choices * 0.3)
       - (fertilizerKgPerHa choices * 0.02);
     pH := 6.5 + (fertilizerKgPerHa choices * 0.01);
     nutrientLevel :=
       if fertilizerKgPerHa choices >? 20 then "High"
       else if fertilizerKgPerHa choices >? 10 then "Moderate" else "Low";
     moistureRetention := nasaSoilMoisture * 100;
     compactionRisk :=
       if livestockDensityPerHa choices >? 4 then "High"
       else if livestockDensityPerHa choices >? 2 then "Moderate" else "Low" |}.

Definition runComprehensiveSimulation (choices : PlayerChoices)
  (nasaData : any) : completion SimulationResult :=
  let baseYield :=
    calculateBaseYield (or_string (cropType choices) "Corn")
      (or_string (soilType choices) "Loam") nasaData in
  let irrigationImpact :=
    calculateIrrigationImpact (irrigationMmPerDay choices) nasaData in
  let fertilizerImpact :=
    calculateFertilizerImpact (fertilizerKgPerHa choices)
      (or_string (soilType choices) "Loam") in
  let livestockImpact' :=
    calculateLivestockImpact (livestockDensityPerHa choices) nasaData in
  let yieldScore' :=
    Math.max 0 (baseYield + IrrigationImpact.yieldBoost irrigationImpact
                + FertilizerImpact.yieldBoost fertilizerImpact
                - LivestockImpact.yieldReduction livestockImpact') in
  let sustainabilityScore' := calculateSustainabilityScore choices nasaData in
  let soilHealthScore' := calculateSoilHealthScore choices nasaData in
  let waterEfficiencyScore' :=
    calculateWaterEfficiencyScore (irrigationMmPerDay choices) nasaData in
  let carbonFootprint' := calculateCarbonFootprint choices in
  let economicViability' := calculateEconomicViability choices yieldScore' in
  let scores :=
    {| Scores.yieldScore := yieldScore';
       Scores.sustainabilityScore := sustainabilityScore';
       Scores.soilHealthScore := soilHealthScore';
       Scores.waterEfficiencyScore := waterEfficiencyScore' |} in
  insights' <- generateComprehensiveInsights choices nasaData scores ;;
  let recommendations' :=
    generateDetailedRecommendations choices nasaData scores in
  Normal
    {| yieldScore := Math.round yieldScore';
       sustainabilityScore := Math.round sustainabilityScore';
       soilHealthScore := Math.round soilHealthScore';
       waterEfficiencyScore := Math.round waterEfficiencyScore';
       carbonFootprint := Math.round carbonFootprint';
       economicViability := Math.round economicViability';
       insights := insights';
       recommendations := recommendations';
       comparison := generateComparisonData choices yieldScore';
       livestockImpact :=
         analyzeLivestockEffects (livestockDensityPerHa choices) nasaData;
       irrigationAnalysis :=
         analyzeIrrigationEffects (irrigationMmPerDay choices) nasaData;
       soilHealthMetrics := analyzeSoilHealth choices nasaData |}.

(** *** The handler *)

(** The request, through its body: [None] when it has none. *)
Record Request := { body : option string }.

Section Handler.

(** [JSON.parse] followed by the cast to [PlayerChoices | undefined]:
    a [SyntaxError], a falsy value ([None]), or the fields a
    destructuring reads from the value. *)
Variable JSON_parse : string -> completion (option PlayerChoices).

(** What [fetch] of the environmental-data endpoint followed by
    [.json()] yields. *)
Variable fetch_nasaData : completion any.

(** [request.json()]: the body is read to its end, an absent body as
    the empty text, and parsed. *)
Definition request_json (request : Request) : completion (option PlayerChoices) :=
  JSON_parse (match body request with Some text => text | None => EmptyString end).

(** [x = d] in a destructuring pattern: the default replaces
    [undefined] only. *)
Definition default (x : option string) (d : string) : string :=
  match x with
  | Some s => s
  | None => d
  end.

Definition POST (request : Request) : completion (Response SimulationResult) :=
  body <- request_json request ;;
  match body with
  | None => Normal (Response_json (ErrorPayload "Missing request body" None) 400)
  | Some body =>
      let irrigationMmPerDay' := irrigationMmPerDay body in
      let fertilizerKgPerHa' := fertilizerKgPerHa body in
      let livestockDensityPerHa' := livestockDensityPerHa body in
      let cropType' := default (cropType body) "Corn" in
      let soilType' := default (soilType body) "Loam" in
      let farmingMethod' := default (farmingMethod body) "Conventional" in
      Normal (try_catch
        (nasaData <- fetch_nasaData ;;
         result <-
           runComprehensiveSimulation
             {| irrigationMmPerDay := irrigationMmPerDay';
                fertilizerKgPerHa := fertilizerKgPerHa';
                livestockDensityPerHa := livestockDensityPerHa';
                cropType := Some cropType';
                soilType := Some soilType';
                farmingMethod := Some farmingMethod' |}
             nasaData ;;
         Normal (Response_json (ResultPayload result) 200))
        (fun error =>
           Response_json (ErrorPayload "Simulation failed" (Some error)) 500))
  end.

End Handler.

End SimulateRoute.

(** ** The two routes together

    The simulation endpoint fetches the environmental-data endpoint at a
    fixed coordinate; when the exchange succeeds it reads the answer
    below. *)

Definition simulation_query : NasaRoute.Request :=
  {| NasaRoute.searchParams :=
       [("lat", "40.7128"); ("lon", "-74.0060")]%string |}.

Definition fetch_nasaData (world : NasaRoute.World) : completion any :=
  Normal (NasaRoute.parsed (NasaRoute.GET world simulation_query)).

(** ** Vocabulary of the properties *)

Import SimulateRoute.

(** [lo <= n <= hi], which no [NaN] satisfies. *)
Definition in_range (lo hi : Q) (n : number) : Prop :=
  JS.le lo n = true /\ JS.le n hi = true.

Definition non_negative (n : number) : Prop := JS.ge n 0 = true.

Definition crops : list string := ["Corn"; "Wheat"; "Soybeans"; "Rice"]%string.
Definition soils : list string := ["Loam"; "Clay"; "Sand"; "Silt"]%string.

(** An optional field that, when given, names a member of the enumeration. *)
Definition within (enum : list string) (field : option string) : Prop :=
  match field with
  | Some s => In s enum
  | None => True
  end.

(** Valid [FarmParameters]: the three quantities are numbers at least
    zero, crop and soil are in their enumerations. *)
Definition valid (choices : PlayerChoices) : Prop :=
  non_negative (irrigationMmPerDay choices)
  /\ non_negative (fertilizerKgPerHa choices)
  /\ non_negative (livestockDensityPerHa choices)
  /\ within crops (cropType choices)
  /\ within soils (soilType choices).

(** The bundle has a drought section. *)
Definition has_drought_section (nasaData : any) : Prop :=
  exists n d dr,
    nasaData = Some n /\ Json.data n = Some d /\ Json.drought d = Some dr.

Definition Qmax (a b : Q) : Q := if Qle_bool a b then b else a.
Definition Qmin (a b : Q) : Q := if Qle_bool a b then a else b.

(** A reading compared with a threshold; an absent reading exceeds none. *)
Definition exceeds (r : reading) (threshold : Q) : bool :=
  match r with
  | Some q => negb (Qle_bool q threshold)
  | None => false
  end.

(** The sustainability score in the words of the specification: 100,
    less the three threshold deductions, plus the two bonuses, clamped. *)
Definition sustainability_spec (irrigation fertilizer livestock : number)
  (ndvi moisture : reading) : Q :=
  let irrigation_deduction :=
    if JS.gt irrigation 8 then 15 else if JS.gt irrigation 5 then 8 else 0 in
  let fertilizer_deduction :=
    if JS.gt fertilizer 30 then 20 else if JS.gt fertilizer 20 then 10 else 0 in
  let livestock_deduction :=
    if JS.gt livestock 5 then 10 else if JS.gt livestock 3 then 5 else 0 in
  let vegetation_bonus := if exceeds ndvi 0.7 then 5 else 0 in
  let moisture_bonus := if exceeds moisture 0.3 then 3 else 0 in
  Qmax 0 (Qmin 100
    (100 - irrigation_deduction - fertilizer_deduction - livestock_deduction
     + vegetation_bonus + moisture_bonus)).

(** The irrigation impact in the words of the specification. *)
Definition efficiency_spec (moisture : reading) : Q :=
  if exceeds moisture 0.25 then 0.8 else 0.6.

Definition irrigation_yieldBoost_spec (irrigation : Q) (moisture : reading) : Q :=
  Qmin (irrigation * 2 * efficiency_spec moisture) 20.

Definition waterEfficiency_spec (irrigation : Q) : Q :=
  if Qle_bool irrigation 5 then 1.0
  else Qmax 0.5 (1 - (irrigation - 5) * 0.1).

(** The root-zone soil moisture the irrigation computation works with:
    the bundle's reading, and the default 0.3 in place of an absent
    reading and of a reading of zero. *)
Definition moisture_or_default (r : reading) : Q :=
  match r with
  | Some q => if Qeq_bool q 0 then 0.3 else q
  | None => 0.3
  end.

(** An answer of the environmental-data endpoint that holds no [data]:
    its error object. *)
Definition no_data : any := Some {| Json.data := None |}.

(** C5 as the specification words it: the efficiency is decided by the
    bundle's root-zone reading alone. *)
Definition irrigation_impact_as_stated : Prop :=
  forall (irrigation : Q) (nasaData : any),
    0 <= irrigation ->
    let impact := calculateIrrigationImpact irrigation nasaData in
    IrrigationImpact.yieldBoost impact
    =n= Num (irrigation_yieldBoost_spec irrigation
               (nasaData ?. Json.data ?. Json.smap ?. Json.soilMoistureRootZone))
    /\ IrrigationImpact.waterEfficiency impact
       =n= Num (waterEfficiency_spec irrigation).

(** The yield score of [runComprehensiveSimulation] before the final
    rounding. *)
Definition yield_before_rounding (choices : PlayerChoices) (nasaData : any)
  : number :=
  Math.max 0
    (calculateBaseYield (or_string (cropType choices) "Corn")
       (or_string (soilType choices) "Loam") nasaData
     + IrrigationImpact.yieldBoost
         (calculateIrrigationImpact (irrigationMmPerDay choices) nasaData)
     + FertilizerImpact.yieldBoost
         (calculateFertilizerImpact (fertilizerKgPerHa choices)
            (or_string (soilType choices) "Loam"))
     - LivestockImpact.yieldReduction
         (calculateLivestockImpact (livestockDensityPerHa choices) nasaData))%js.

(** C1 as the specification words it: all four scores within [0, 100]. *)
Definition four_scores_as_stated : Prop :=
  forall (choices : PlayerChoices) (nasaData : any) (r : SimulationResult),
    valid choices ->
    runComprehensiveSimulation choices nasaData = Normal r ->
    in_range 0 100 (yieldScore r)
    /\ in_range 0 100 (sustainabilityScore r)
    /\ in_range 0 100 (soilHealthScore r)
    /\ in_range 0 100 (waterEfficiencyScore r).

(** The inputs of the worked example of the specification. *)
Definition example_choices : PlayerChoices :=
  {| irrigationMmPerDay := 5;
     fertilizerKgPerHa := 15;
     livestockDensityPerHa := 2;
     cropType := Some "Corn"%string;
     soilType := Some "Loam"%string;
     farmingMethod := None |}.

(** A bundle with the four readings of the worked example and the
    drought section of a bundle of the endpoint. *)
Definition example_bundle : any :=
  Some {| Json.data := Some
    {| Json.power := Some
         {| Json.temperature2m := Some 20; Json.precipitation := Some 15 |};
       Json.smap := Some
         {| Json.soilMoistureRootZone := Some 0.3;
            Json.soilMoistureSurface := None |};
       Json.modis := Some {| Json.ndvi := Some 0.65 |};
       Json.drought := Some {| Json.droughtCategory := Some "None"%string |} |} |}.

(** The same choices at another fertilizer amount. *)
Definition with_fertilizer (choices : PlayerChoices) (fertilizer : number)
  : PlayerChoices :=
  {| irrigationMmPerDay := irrigationMmPerDay choices;
     fertilizerKgPerHa := fertilizer;
     livestockDensityPerHa := livestockDensityPerHa choices;
     cropType := cropType choices;
     soilType := soilType choices;
     farmingMethod := farmingMethod choices |}.

(** Whether a list of recommendations holds a record of the category. *)
Definition emits (name : string) (records : list Recommendation) : bool :=
  existsb (fun r => String.eqb (category r) name) records.

(** The unrounded scores [runComprehensiveSimulation] hands to the two
    generators. *)
Definition scores_of (choices : PlayerChoices) (nasaData : any) : Scores.t :=
  {| Scores.yieldScore := yield_before_rounding choices nasaData;
     Scores.sustainabilityScore := calculateSustainabilityScore choices nasaData;
     Scores.soilHealthScore := calculateSoilHealthScore choices nasaData;
     Scores.waterEfficiencyScore :=
       calculateWaterEfficiencyScore (irrigationMmPerDay choices) nasaData |}.

(** The bundle carries the four readings of the worked example. *)
Definition example_readings (nasaData : any) : Prop :=
  nasaData ?. Json.data ?. Json.power ?. Json.temperature2m = Some 20
  /\ nasaData ?. Json.data ?. Json.smap ?. Json.soilMoistureRootZone = Some 0.3
  /\ nasaData ?. Json.data ?. Json.power ?. Json.precipitation = Some 15
  /\ nasaData ?. Json.data ?. Json.modis ?. Json.ndvi = Some 0.65.

(** A world for worked requests: the clock reads 0, where the sine is 0
    (no other value of it is consulted), and every draw is one half. *)
Definition example_world : NasaRoute.World :=
  {| NasaRoute.Date_now := 0;
     NasaRoute.Math_sin := fun _ => 0;
     NasaRoute.Math_random := fun _ => 0.5;
     NasaRoute.toISOString := "2025-10-04T12:00:00.000Z" |}.

Definition lettered_query : NasaRoute.Request :=
  {| NasaRoute.searchParams := [("lat", "abc"); ("lon", "xyz")]%string |}.

Definition query_without_lon : NasaRoute.Request :=
  {| NasaRoute.searchParams := [("lat", "40.7128")]%string |}.

(** C3 as the specification words it: coordinates that are present but
    not finite numbers are answered with a 400 error. *)
Definition malformed_coordinates_as_stated : Prop :=
  forall (world : NasaRoute.World) (request : NasaRoute.Request)
    (latitude longitude : string),
    NasaRoute.get (NasaRoute.searchParams request) "lat" = Some latitude ->
    NasaRoute.get (NasaRoute.searchParams request) "lon" = Some longitude ->
    isFinite (Number (Some latitude)) = false
    \/ isFinite (Number (Some longitude)) = false ->
    status (NasaRoute.GET world request) = 400%Z
    /\ has_error_field (NasaRoute.GET world request) = true.

(** The JSON text of the empty string: two quotation marks. *)
Definition empty_string_literal : string :=
  String (ascii_of_nat 34) (String (ascii_of_nat 34) EmptyString).

(** A parser that knows the four falsy JSON texts and rejects every other
    text: enough to run the handler on requests without a usable body. *)
Definition parse_falsy_literals (text : string)
  : completion (option PlayerChoices) :=
  if existsb (String.eqb text) ["null"; "false"; "0"; empty_string_literal]%string
  then Normal None
  else Throw SyntaxError.

Definition request_without_body : SimulateRoute.Request :=
  {| SimulateRoute.body := None |}.

(** The choices of the worked example under another crop name. *)
Definition example_choices_of_crop (crop : string) : PlayerChoices :=
  {| irrigationMmPerDay := 5;
     fertilizerKgPerHa := 15;
     livestockDensityPerHa := 2;
     cropType := Some crop;
     soilType := Some "Loam"%string;
     farmingMethod := None |}.

(** The same choices under other crop and soil names. *)
Definition with_crop_and_soil (choices : PlayerChoices) (crop soil : option string)
  : PlayerChoices :=
  {| irrigationMmPerDay := irrigationMmPerDay choices;
     fertilizerKgPerHa := fertilizerKgPerHa choices;
     livestockDensityPerHa := livestockDensityPerHa choices;
     cropType := crop;
     soilType := soil;
     farmingMethod := farmingMethod choices |}.

(** A bundle whose root-zone reading is exactly zero. *)
Definition dry_bundle : any :=
  Some {| Json.data := Some
    {| Json.power := None;
       Json.smap := Some
         {| Json.soilMoistureRootZone := Some 0;
            Json.soilMoistureSurface := None |};
       Json.modis := None;
       Json.drought := None |} |}.

(** The same choices at another irrigation amount, or another livestock
    density. *)
Definition with_irrigation (choices : PlayerChoices) (irrigation : number)
  : PlayerChoices :=
  {| irrigationMmPerDay := irrigation;
     fertilizerKgPerHa := fertilizerKgPerHa choices;
     livestockDensityPerHa := livestockDensityPerHa choices;
     cropType := cropType choices;
     soilType := soilType choices;
     farmingMethod := farmingMethod choices |}.

Definition with_livestock (choices : PlayerChoices) (livestock : number)
  : PlayerChoices :=
  {| irrigationMmPerDay := irrigationMmPerDay choices;
     fertilizerKgPerHa := fertilizerKgPerHa choices;
     livestockDensityPerHa := livestock;
     cropType := cropType choices;
     soilType := soilType choices;
     farmingMethod := farmingMethod choices |}.

(** The drought insight for a category. *)
Definition drought_message (category : string) : string :=
  ("Drought conditions detected (" ++ category
   ++ ") - prioritize water conservation")%string.

(** The categories of recommendation, in the order the generator tests
    them. *)
Definition recommendation_categories : list string :=
  ["Water Management"; "Nutrient Management"; "Livestock Management"]%string.

(** A world as the platform provides it: every draw lies in [0, 1) and the
    sine of the clock reading is a number between -1 and 1. *)
Definition platform (world : NasaRoute.World) : Prop :=
  (forall k, 0 <= NasaRoute.Math_random world k < 1)
  /\ exists s,
       NasaRoute.Math_sin world (NasaRoute.Date_now world / 1000000)%js = Num s
       /\ -1 <= s <= 1.

(** The data the endpoint generates for a request with coordinates. *)
Definition generated (world : NasaRoute.World) : NasaRoute.NasaData :=
  fst (NasaRoute.fetchComprehensiveNasaData world 0 0 0%nat).

(** The bundle the simulation endpoint reads from the environmental one. *)
Definition endpoint_bundle (world : NasaRoute.World) : any :=
  NasaRoute.parsed (NasaRoute.GET world simulation_query).

(** A query with coordinates: lat and lon present and not empty. *)
Definition has_coordinates (request : NasaRoute.Request) : Prop :=
  NasaRoute.falsy (NasaRoute.get (NasaRoute.searchParams request) "lat")
  || NasaRoute.falsy (NasaRoute.get (NasaRoute.searchParams request) "lon")
  = false.

(** The body the results page posts: the default parameters as JSON
    text. *)
Definition quoted (s : string) : string :=
  (String (ascii_of_nat 34) s ++ String (ascii_of_nat 34) EmptyString)%string.

Definition default_body : string :=
  ("{" ++ quoted "irrigationMmPerDay" ++ ":5,"
   ++ quoted "fertilizerKgPerHa" ++ ":15,"
   ++ quoted "livestockDensityPerHa" ++ ":2,"
   ++ quoted "cropType" ++ ":" ++ quoted "Corn" ++ ","
   ++ quoted "soilType" ++ ":" ++ quoted "Loam" ++ "}")%string.

(** The same quantities with crop and soil left out. *)
Definition bare_body : string :=
  ("{" ++ quoted "irrigationMmPerDay" ++ ":5,"
   ++ quoted "fertilizerKgPerHa" ++ ":15,"
   ++ quoted "livestockDensityPerHa" ++ ":2}")%string.

Definition bare_choices : PlayerChoices :=
  {| irrigationMmPerDay := 5;
     fertilizerKgPerHa := 15;
     livestockDensityPerHa := 2;
     cropType := None;
     soilType := None;
     farmingMethod := None |}.

(** A parser that knows these two bodies besides the falsy texts. *)
Definition parse_default_body (text : string)
  : completion (option PlayerChoices) :=
  if String.eqb text default_body then Normal (Some example_choices)
  else if String.eqb text bare_body then Normal (Some bare_choices)
  else parse_falsy_literals text.

Definition default_request : SimulateRoute.Request :=
  {| SimulateRoute.body := Some default_body |}.

(** Two bodies that differ at most in how they give crop and soil, and in
    the farming method. *)
Definition same_farm (c c' : PlayerChoices) : Prop :=
  irrigationMmPerDay c = irrigationMmPerDay c'
  /\ fertilizerKgPerHa c = fertilizerKgPerHa c'
  /\ livestockDensityPerHa c = livestockDensityPerHa c'
  /\ or_string (cropType c) "Corn" = or_string (cropType c') "Corn"
  /\ or_string (soilType c) "Loam" = or_string (soilType c') "Loam".

(** A bundle that holds the four readings of the worked example and
    nothing else. *)
Definition four_readings_bundle : any :=
  Some {| Json.data := Some
    {| Json.power := Some
         {| Json.temperature2m := Some 20; Json.precipitation := Some 15 |};
       Json.smap := Some
         {| Json.soilMoistureRootZone := Some 0.3;
            Json.soilMoistureSurface := None |};
       Json.modis := Some {| Json.ndvi := Some 0.65 |};
       Json.drought := None |} |}.

(** C8 as the specification words it: on a bundle with the four readings
    the base yield is 110 and the simulation has a result to reproduce. *)
Definition worked_example_as_stated : Prop :=
  forall nasaData : any,
    example_readings nasaData ->
    calculateBaseYield "Corn" "Loam" nasaData =n= 110
    /\ exists r, runComprehensiveSimulation example_choices nasaData = Normal r.

(** The product of [calculateBaseYield] in the arithmetic of the code:
    binary64, where the literal 1.1 is the double nearest to it. *)
Module Binary64.

Import PrimFloat.

Definition product (baseYield soilFactor weatherFactor : float) : float :=
  (baseYield * soilFactor * weatherFactor)%float.

(** The crop multiplier of Corn, the soil factor of Loam and the weather
    factor up to 25 degrees, as doubles. *)
Definition Corn : float := 100%float.
Definition Loam : float := 1%float.
Definition cool : float := 0x1.199999999999ap+0%float.

Definition exactly_110 : float := 110%float.

(** The double printed 110.00000000000001: 110 plus one unit in the last
    place. *)
Definition above_110 : float := 0x1.b800000000001p+6%float.

End Binary64.

(** * Properties *)

(** ** Numbers *)

Lemma Qle_bool_false (a b : Q) : Qle_bool a b = false -> b < a.
Proof.
  intros H. apply Qnot_le_lt. intros Hle.
  apply Qle_bool_iff in Hle. congruence.
Qed.

Lemma Qeq_bool_false (a b : Q) : Qeq_bool a b = false -> ~ a == b.
Proof.
  intros H Heq. apply Qeq_bool_iff in Heq. congruence.
Qed.

(** Case analysis on every rational comparison of the goal, each outcome
    recorded as an order fact for [lra]. *)
Ltac q_cases :=
  repeat match goal with
    | |- context [Qle_bool ?a ?b] =>
        let H := fresh "H" in
        destruct (Qle_bool a b) eqn:H;
        [apply Qle_bool_iff in H | apply Qle_bool_false in H]
    | |- context [Qeq_bool ?a ?b] =>
        let H := fresh "H" in
        destruct (Qeq_bool a b) eqn:H;
        [apply Qeq_bool_iff in H | apply Qeq_bool_false in H]
    end.

Ltac q_hyps :=
  repeat match goal with
    | H : Qle_bool _ _ = true |- _ => apply Qle_bool_iff in H
    | H : Qle_bool _ _ = false |- _ => apply Qle_bool_false in H
    | H : negb _ = true |- _ => apply negb_true_iff in H
    | H : negb _ = false |- _ => apply negb_false_iff in H
    | H : Qeq_bool _ _ = true |- _ => apply Qeq_bool_iff in H
    | H : Qeq_bool _ _ = false |- _ => apply Qeq_bool_false in H
    end.

Ltac q_auto :=
  repeat (progress (q_cases; cbn in * )); q_hyps; try lra.

Lemma gt_Num (a b : Q) : JS.gt (Num a) (Num b) = true <-> b < a.
Proof.
  unfold JS.gt, JS.lt. rewrite negb_true_iff. split; intros H.
  - now apply Qle_bool_false.
  - destruct (Qle_bool a b) eqn:E; [apply Qle_bool_iff in E; lra | reflexivity].
Qed.

Lemma le_Num (a b : Q) : JS.le (Num a) (Num b) = true <-> a <= b.
Proof. apply Qle_bool_iff. Qed.

Lemma non_negative_cases (n : number) :
  non_negative n -> n = PosInf \/ exists q, n = Num q /\ 0 <= q.
Proof.
  unfold non_negative, JS.ge. destruct n as [ | | | q]; cbn; intros H;
    try discriminate; [now left | right].
  exists q. split; [reflexivity | now apply Qle_bool_iff].
Qed.

Lemma eq_refl_number (n : number) : n =n= n.
Proof. destruct n; cbn; auto. reflexivity. Qed.

(** ** The sustainability score *)

(** C4: for every parameters and bundle, the sustainability score is 100
    less 15 when irrigation exceeds 8 (else 8 when it exceeds 5), less 20
    when fertilizer exceeds 30 (else 10 when it exceeds 20), less 10 when
    livestock exceeds 5 (else 5 when it exceeds 3), plus 5 when the
    vegetation index exceeds 0.7, plus 3 when root-zone soil moisture
    exceeds 0.3, clamped to [0, 100]. *)
Theorem sustainability_score_formula (choices : PlayerChoices) (nasaData : any) :
  calculateSustainabilityScore choices nasaData
  =n= Num (sustainability_spec
             (irrigationMmPerDay choices) (fertilizerKgPerHa choices)
             (livestockDensityPerHa choices)
             (nasaData ?. Json.data ?. Json.modis ?. Json.ndvi)
             (nasaData ?. Json.data ?. Json.smap ?. Json.soilMoistureRootZone)).
Proof.
  unfold calculateSustainabilityScore, sustainability_spec.
  assert (E : forall r t, JS.gt (ToNumber_reading r) (Num t) = exceeds r t)
    by (intros [q | ] t; reflexivity).
  rewrite !E.
  destruct (JS.gt (irrigationMmPerDay choices) 8),
    (JS.gt (irrigationMmPerDay choices) 5),
    (JS.gt (fertilizerKgPerHa choices) 30),
    (JS.gt (fertilizerKgPerHa choices) 20),
    (JS.gt (livestockDensityPerHa choices) 5),
    (JS.gt (livestockDensityPerHa choices) 3),
    (exceeds (nasaData ?. Json.data ?. Json.modis ?. Json.ndvi) 0.7),
    (exceeds (nasaData ?. Json.data ?. Json.smap ?. Json.soilMoistureRootZone) 0.3);
    vm_compute; reflexivity.
Qed.

(** ** The irrigation impact *)

Lemma or_number_moisture (r : reading) :
  or_number r 0.3 = Num (moisture_or_default r).
Proof.
  destruct r as [q | ]; cbn; [ | reflexivity].
  destruct (Qeq_bool q 0); reflexivity.
Qed.

(** C5, amended: for every irrigation amount at least zero and every
    bundle, the yield boost is min(irrigation x 2 x efficiency, 20), the
    efficiency being 0.8 when the root-zone soil moisture the computation
    works with - the bundle's reading, or the default 0.3 when the bundle
    carries no such reading or a reading of zero - exceeds 0.25 and 0.6
    otherwise; the water-efficiency multiplier is 1.0 up to 5 mm/day and
    max(0.5, 1 - (irrigation - 5) x 0.1) above. *)
Theorem irrigation_impact_formula (irrigation : Q) (nasaData : any) :
  0 <= irrigation ->
  let impact := calculateIrrigationImpact irrigation nasaData in
  IrrigationImpact.yieldBoost impact
  =n= Num (irrigation_yieldBoost_spec irrigation
             (Some (moisture_or_default
                      (nasaData ?. Json.data ?. Json.smap
                       ?. Json.soilMoistureRootZone))))
  /\ IrrigationImpact.waterEfficiency impact
     =n= Num (waterEfficiency_spec irrigation).
Proof.
  intros Hpos.
  unfold calculateIrrigationImpact. cbn zeta. rewrite or_number_moisture.
  generalize (moisture_or_default
                (nasaData ?. Json.data ?. Json.smap ?. Json.soilMoistureRootZone)).
  intros m.
  unfold irrigation_yieldBoost_spec, efficiency_spec, waterEfficiency_spec,
    exceeds, Qmin, Qmax.
  cbn. split; q_auto.
Qed.

(** C5, as stated, fails on a bundle without a root-zone reading: the
    computation works with 0.3 and boosts by 8, where an efficiency of
    0.6 would give 6. *)
Lemma irrigation_impact_not_as_stated : ~ irrigation_impact_as_stated.
Proof.
  intros H. specialize (H 5 no_data). cbv zeta in H.
  destruct H as [H _]; [lra | ]. vm_compute in H. discriminate H.
Qed.

Lemma irrigation_impact_formula_witness :
  let impact := calculateIrrigationImpact 5 dry_bundle in
  IrrigationImpact.yieldBoost impact
  =n= Num (irrigation_yieldBoost_spec 5 (Some 0.3))
  /\ IrrigationImpact.waterEfficiency impact =n= Num (waterEfficiency_spec 5).
Proof.
  apply (irrigation_impact_formula 5 dry_bundle). vm_compute. discriminate.
Defined.

(** A reading of exactly zero is falsy and is replaced by the default
    as well: the boost at 5 mm/day is again 8. *)
Remark zero_reading_is_defaulted :
  IrrigationImpact.yieldBoost (calculateIrrigationImpact 5 dry_bundle) =n= 8.
Proof. vm_compute. reflexivity. Qed.

(** ** Ranges of the scores *)

Lemma round_in_range (a b : Z) (n : number) :
  in_range (inject_Z a) (inject_Z b) n ->
  in_range (inject_Z a) (inject_Z b) (Math.round n).
Proof.
  unfold in_range. destruct n as [ | | | q]; cbn [Math.round JS.le]; try tauto.
  rewrite !Qle_bool_iff. intros [Hlo Hhi]. split.
  - rewrite <- Zle_Qle. rewrite <- (Qfloor_Z a).
    apply Qfloor_resp_le. lra.
  - rewrite <- Zle_Qle.
    assert (H : (Qfloor (q + 0.5) < b + 1)%Z).
    { rewrite Zlt_Qlt. apply Qle_lt_trans with (q + 0.5).
      - apply Qfloor_le.
      - rewrite inject_Z_plus. change (inject_Z 1) with 1. lra. }
    lia.
Qed.

Lemma clamp_in_range (n : number) :
  n <> NaN -> in_range 0 100 (Math.max 0 (Math.min 100 n)).
Proof.
  unfold in_range. destruct n as [ | | | q]; cbn; try tauto; try easy.
  intros _. q_auto; split; q_auto.
Qed.

Lemma or_number_Num (r : reading) (d : Q) : exists q, or_number r d = Num q.
Proof.
  destruct r as [q | ]; cbn; [ | now exists d].
  destruct (Qeq_bool q 0); cbn; eauto.
Qed.

(** Case analysis on the threshold tests made on a field of the choices. *)
Ltac threshold_cases :=
  repeat match goal with
    | |- context [JS.gt (?f ?c) ?t] => is_var c; destruct (JS.gt (f c) t)
    | |- context [JS.lt (?f ?c) ?t] => is_var c; destruct (JS.lt (f c) t)
    | |- context [JS.gt (ToNumber_reading ?r) ?t] =>
        destruct (JS.gt (ToNumber_reading r) t)
    end.

Lemma sustainability_in_range (choices : PlayerChoices) (nasaData : any) :
  in_range 0 100 (calculateSustainabilityScore choices nasaData).
Proof.
  unfold calculateSustainabilityScore.
  threshold_cases; vm_compute; auto.
Qed.

Lemma soilHealth_in_range (choices : PlayerChoices) (nasaData : any) :
  livestockDensityPerHa choices <> NaN ->
  in_range 0 100 (calculateSoilHealthScore choices nasaData).
Proof.
  intros Hl. unfold calculateSoilHealthScore.
  destruct (or_number_Num
              (nasaData ?. Json.data ?. Json.smap ?. Json.soilMoistureRootZone)
              0.3) as [m ->].
  apply clamp_in_range.
  destruct (livestockDensityPerHa choices) as [ | | | l]; [easy | | | ];
    threshold_cases; cbn; q_cases; discriminate.
Qed.

Lemma waterEfficiency_in_range (irrigationMm : number) (nasaData : any) :
  irrigationMm <> NaN ->
  in_range 0 100 (calculateWaterEfficiencyScore irrigationMm nasaData).
Proof.
  intros Hi. unfold calculateWaterEfficiencyScore.
  destruct (or_number_Num
              (nasaData ?. Json.data ?. Json.power ?. Json.precipitation)
              15) as [p ->].
  apply clamp_in_range.
  destruct irrigationMm as [ | | | i]; [easy | | | ];
    cbn; q_cases; discriminate.
Qed.

Lemma or_string_within (enum : list string) (field : option string) (d : string) :
  ~ In EmptyString enum -> In d enum -> within enum field ->
  In (or_string field d) enum.
Proof.
  intros Hne Hd. destruct field as [[ | c s] | ]; cbn; auto.
Qed.

Lemma baseYield_range (crop soil : string) (nasaData : any) :
  In crop crops -> In soil soils ->
  exists b, calculateBaseYield crop soil nasaData = Num b /\ 0 <= b <= 110.
Proof.
  unfold calculateBaseYield. cbn [crops soils In].
  intros Hc Hs.
  destruct (JS.gt (ToNumber_reading
                     (nasaData ?. Json.data ?. Json.power ?. Json.temperature2m))
              25);
    repeat (destruct Hc as [<- | Hc]; [ | try contradiction ]);
    repeat (destruct Hs as [<- | Hs]; [ | try contradiction ]);
    (eexists; split; [reflexivity | vm_compute; split; discriminate]).
Qed.

Lemma irrigation_boost_range (irrigationMm : number) (nasaData : any) :
  non_negative irrigationMm ->
  exists b,
    IrrigationImpact.yieldBoost (calculateIrrigationImpact irrigationMm nasaData)
    = Num b /\ 0 <= b <= 20.
Proof.
  intros H. unfold calculateIrrigationImpact.
  destruct (or_number_Num
              (nasaData ?. Json.data ?. Json.smap ?. Json.soilMoistureRootZone)
              0.3) as [m ->].
  destruct (non_negative_cases _ H) as [-> | (i & -> & Hi)];
    cbn; q_auto; (eexists; split; [reflexivity | q_auto]).
Qed.

Lemma fertilizer_boost_range (fertilizerKg : number) (soil : string) :
  non_negative fertilizerKg -> In soil soils ->
  exists b,
    FertilizerImpact.yieldBoost (calculateFertilizerImpact fertilizerKg soil)
    = Num b /\ 0 <= b <= 15.
Proof.
  intros H Hs. unfold calculateFertilizerImpact. cbn [soils In] in Hs.
  destruct (non_negative_cases _ H) as [-> | (f & -> & Hf)];
    repeat (destruct Hs as [<- | Hs]; [ | try contradiction ]);
    cbn; q_auto; (eexists; split; [reflexivity | q_auto]).
Qed.

Lemma yield_in_range (choices : PlayerChoices) (nasaData : any) :
  valid choices -> in_range 0 145 (yield_before_rounding choices nasaData).
Proof.
  intros (Hi & Hf & Hl & Hc & Hs). unfold yield_before_rounding.
  assert (Hcrop : In (or_string (cropType choices) "Corn") crops)
    by (apply or_string_within; cbn; intuition discriminate).
  assert (Hsoil : In (or_string (soilType choices) "Loam") soils)
    by (apply or_string_within; cbn; intuition discriminate).
  destruct (baseYield_range _ _ nasaData Hcrop Hsoil) as (b & -> & Hb).
  destruct (irrigation_boost_range _ nasaData Hi) as (bi & -> & Hbi).
  destruct (fertilizer_boost_range _ _ Hf Hsoil) as (bf & -> & Hbf).
  unfold in_range.
  destruct (non_negative_cases _ Hl) as [-> | (l & -> & Hl')];
    cbn; q_auto; split; q_auto.
Qed.

(** ** When the simulation returns, and what it returns *)

Lemma insights_return (choices : PlayerChoices) (nasaData : any) (scores : Scores.t) :
  has_drought_section nasaData ->
  exists l, generateComprehensiveInsights choices nasaData scores = Normal l.
Proof.
  intros (n & d & dr & -> & Hd & Hdr).
  unfold generateComprehensiveInsights, droughtCategory_of.
  cbn. rewrite Hd. cbn. rewrite Hdr. cbn.
  destruct (differs_from_None (Json.droughtCategory dr)); cbn; eauto.
Qed.

Lemma insights_throw (choices : PlayerChoices) (nasaData : any) (scores : Scores.t) :
  ~ has_drought_section nasaData ->
  generateComprehensiveInsights choices nasaData scores = Throw TypeError.
Proof.
  intros H. unfold generateComprehensiveInsights, droughtCategory_of.
  destruct nasaData as [n | ]; [ | reflexivity].
  cbn. destruct (Json.data n) as [d | ] eqn:Hd; [ | reflexivity].
  cbn. destruct (Json.drought d) as [dr | ] eqn:Hdr; [ | reflexivity].
  exfalso. apply H. now exists n, d, dr.
Qed.

Lemma simulation_returns (choices : PlayerChoices) (nasaData : any) :
  has_drought_section nasaData ->
  exists r, runComprehensiveSimulation choices nasaData = Normal r.
Proof.
  intros H. unfold runComprehensiveSimulation. cbv zeta.
  match goal with
  | |- context [generateComprehensiveInsights ?c ?n ?s] =>
      destruct (insights_return c n s H) as [l ->]
  end.
  cbn. eauto.
Qed.

Lemma simulation_throws (choices : PlayerChoices) (nasaData : any) :
  ~ has_drought_section nasaData ->
  runComprehensiveSimulation choices nasaData = Throw TypeError.
Proof.
  intros H. unfold runComprehensiveSimulation. cbv zeta.
  now rewrite insights_throw.
Qed.

Lemma simulation_scores (choices : PlayerChoices) (nasaData : any)
  (r : SimulationResult) :
  runComprehensiveSimulation choices nasaData = Normal r ->
  yieldScore r = Math.round (yield_before_rounding choices nasaData)
  /\ sustainabilityScore r
     = Math.round (calculateSustainabilityScore choices nasaData)
  /\ soilHealthScore r = Math.round (calculateSoilHealthScore choices nasaData)
  /\ waterEfficiencyScore r
     = Math.round (calculateWaterEfficiencyScore (irrigationMmPerDay choices) nasaData)
  /\ carbonFootprint r = Math.round (calculateCarbonFootprint choices)
  /\ economicViability r
     = Math.round (calculateEconomicViability choices
                     (yield_before_rounding choices nasaData)).
Proof.
  unfold runComprehensiveSimulation. cbv zeta.
  match goal with
  | |- context [generateComprehensiveInsights ?c ?n ?s] =>
      destruct (generateComprehensiveInsights c n s) as [l | e]
  end; cbn [bind]; intros H; [ | discriminate H].
  injection H as <-. cbn. repeat split.
Qed.

Lemma non_negative_not_NaN (n : number) : non_negative n -> n <> NaN.
Proof. intros H ->. discriminate H. Qed.

Lemma example_valid : valid example_choices.
Proof.
  repeat split; cbn; auto.
Qed.

Lemma example_run :
  exists r,
    runComprehensiveSimulation example_choices example_bundle = Normal r
    /\ yieldScore r = 123
    /\ sustainabilityScore r = 100
    /\ soilHealthScore r = 76
    /\ waterEfficiencyScore r = 100
    /\ carbonFootprint r = 293
    /\ economicViability r = 0.
Proof.
  eexists. split; [vm_compute; reflexivity | ].
  cbn. repeat split.
Qed.

(** ** The four scores *)

(** C1, as stated, fails on the worked example of the specification: the
    yield score is 123. *)
Lemma four_scores_not_as_stated : ~ four_scores_as_stated.
Proof.
  intros H. destruct example_run as (r & Hr & Hy & _).
  destruct (H _ _ r example_valid Hr) as ((_ & Hhi) & _).
  rewrite Hy in Hhi. discriminate Hhi.
Qed.

(** C1, amended: for every valid parameters and every bundle, the
    sustainability, soil health and water efficiency scores a simulation
    returns lie in [0, 100] and its yield score lies in [0, 145]; the
    simulation returns whenever the bundle has a drought section. *)
Theorem scores_in_range (choices : PlayerChoices) (nasaData : any) :
  valid choices ->
  (has_drought_section nasaData ->
   exists r, runComprehensiveSimulation choices nasaData = Normal r)
  /\ (forall r,
        runComprehensiveSimulation choices nasaData = Normal r ->
        in_range 0 145 (yieldScore r)
        /\ in_range 0 100 (sustainabilityScore r)
        /\ in_range 0 100 (soilHealthScore r)
        /\ in_range 0 100 (waterEfficiencyScore r)).
Proof.
  intros Hv. split; [apply simulation_returns | ].
  intros r Hr.
  destruct (simulation_scores _ _ _ Hr) as (-> & -> & -> & -> & _).
  pose proof Hv as (Hi & Hf & Hl & _).
  repeat split.
  1, 2: apply (round_in_range 0 145), yield_in_range, Hv.
  1, 2: apply (round_in_range 0 100), sustainability_in_range.
  1, 2: apply (round_in_range 0 100), soilHealth_in_range,
          non_negative_not_NaN, Hl.
  1, 2: apply (round_in_range 0 100), waterEfficiency_in_range,
          non_negative_not_NaN, Hi.
Qed.

Lemma scores_in_range_witness :
  (has_drought_section example_bundle ->
   exists r, runComprehensiveSimulation example_choices example_bundle = Normal r)
  /\ (forall r,
        runComprehensiveSimulation example_choices example_bundle = Normal r ->
        in_range 0 145 (yieldScore r)
        /\ in_range 0 100 (sustainabilityScore r)
        /\ in_range 0 100 (soilHealthScore r)
        /\ in_range 0 100 (waterEfficiencyScore r)).
Proof.
  apply (scores_in_range example_choices example_bundle).
  repeat split; cbn; auto.
Defined.

(** ** Soil health and extreme fertilizer use *)

(** C7: for every fertilizer amount above 25, the other parameters (the
    livestock density a number) and the bundle held fixed, the soil health
    score is at most the soil health score at fertilizer 15. *)
Theorem soil_health_past_extreme (choices : PlayerChoices) (nasaData : any)
  (fertilizer : number) :
  JS.gt fertilizer 25 = true ->
  livestockDensityPerHa choices <> NaN ->
  JS.le (calculateSoilHealthScore (with_fertilizer choices fertilizer) nasaData)
        (calculateSoilHealthScore (with_fertilizer choices 15) nasaData)
  = true.
Proof.
  intros Hf Hl. unfold calculateSoilHealthScore, with_fertilizer.
  cbn [fertilizerKgPerHa livestockDensityPerHa irrigationMmPerDay].
  rewrite Hf.
  destruct (or_number_Num
              (nasaData ?. Json.data ?. Json.smap ?. Json.soilMoistureRootZone)
              0.3) as [m ->].
  destruct (livestockDensityPerHa choices) as [ | | | l]; [easy | | | ];
    threshold_cases; cbn; q_auto.
Qed.

Lemma soil_health_past_extreme_witness :
  JS.le (calculateSoilHealthScore (with_fertilizer example_choices 40) example_bundle)
        (calculateSoilHealthScore (with_fertilizer example_choices 15) example_bundle)
  = true.
Proof.
  apply (soil_health_past_extreme example_choices example_bundle 40);
    [reflexivity | discriminate].
Defined.

(** ** The recommendation rules *)

Lemma simulation_lists (choices : PlayerChoices) (nasaData : any)
  (r : SimulationResult) :
  runComprehensiveSimulation choices nasaData = Normal r ->
  generateComprehensiveInsights choices nasaData (scores_of choices nasaData)
  = Normal (insights r)
  /\ recommendations r
     = generateDetailedRecommendations choices nasaData (scores_of choices nasaData).
Proof.
  unfold runComprehensiveSimulation. cbv zeta.
  fold (yield_before_rounding choices nasaData).
  fold (scores_of choices nasaData).
  destruct (generateComprehensiveInsights choices nasaData
              (scores_of choices nasaData)) as [l | e];
    cbn [bind]; intros H; [ | discriminate H].
  injection H as <-. cbn. split; reflexivity.
Qed.

(** C6: for every parameters, bundle and scores, the recommendations hold
    a Water Management record exactly when the water-efficiency score is
    below 70, a Nutrient Management record exactly when fertilizer exceeds
    20 and a Livestock Management record exactly when livestock density
    exceeds 3 - in a simulation the score being the water-efficiency score
    it computed; equal inputs give equal insight and recommendation
    lists. *)
Theorem recommendation_rules (choices : PlayerChoices) (nasaData : any)
  (scores : Scores.t) :
  let records := generateDetailedRecommendations choices nasaData scores in
  emits "Water Management" records
  = JS.lt (Scores.waterEfficiencyScore scores) 70
  /\ emits "Nutrient Management" records = JS.gt (fertilizerKgPerHa choices) 20
  /\ emits "Livestock Management" records
     = JS.gt (livestockDensityPerHa choices) 3
  /\ (forall r,
        runComprehensiveSimulation choices nasaData = Normal r ->
        emits "Water Management" (recommendations r)
        = JS.lt (calculateWaterEfficiencyScore (irrigationMmPerDay choices)
                   nasaData) 70
        /\ emits "Nutrient Management" (recommendations r)
           = JS.gt (fertilizerKgPerHa choices) 20
        /\ emits "Livestock Management" (recommendations r)
           = JS.gt (livestockDensityPerHa choices) 3)
  /\ (forall choices' nasaData' scores',
        choices' = choices -> nasaData' = nasaData -> scores' = scores ->
        generateComprehensiveInsights choices' nasaData' scores'
        = generateComprehensiveInsights choices nasaData scores
        /\ generateDetailedRecommendations choices' nasaData' scores'
           = generateDetailedRecommendations choices nasaData scores).
Proof.
  assert (rules : forall s,
    let records := generateDetailedRecommendations choices nasaData s in
    emits "Water Management" records = JS.lt (Scores.waterEfficiencyScore s) 70
    /\ emits "Nutrient Management" records = JS.gt (fertilizerKgPerHa choices) 20
    /\ emits "Livestock Management" records
       = JS.gt (livestockDensityPerHa choices) 3).
  { intros s. unfold generateDetailedRecommendations.
    destruct (JS.lt (Scores.waterEfficiencyScore s) 70),
      (JS.gt (fertilizerKgPerHa choices) 20),
      (JS.gt (livestockDensityPerHa choices) 3);
      cbn; repeat split. }
  cbv zeta. destruct (rules scores) as (Hw & Hn & Hl).
  split; [exact Hw | ]. split; [exact Hn | ]. split; [exact Hl | ]. split.
  - intros r Hr. destruct (simulation_lists _ _ _ Hr) as [_ ->].
    apply (rules (scores_of choices nasaData)).
  - intros choices' nasaData' scores' -> -> ->. split; reflexivity.
Qed.

Lemma recommendation_rules_witness :
  let records :=
    generateDetailedRecommendations example_choices example_bundle
      (scores_of example_choices example_bundle) in
  emits "Water Management" records = false
  /\ emits "Nutrient Management" records = false
  /\ emits "Livestock Management" records = false.
Proof.
  destruct (recommendation_rules example_choices example_bundle
              (scores_of example_choices example_bundle))
    as (Hw & Hn & Hl & _).
  cbv zeta.
  split; [rewrite Hw; reflexivity | ].
  split; [rewrite Hn | rewrite Hl]; reflexivity.
Defined.

(** The rule looks at the score before rounding: at 10.8 mm/day the
    record is emitted for a score of 69.6, which the result reports as
    70. *)
Remark water_management_at_reported_70 :
  exists r,
    runComprehensiveSimulation
      {| irrigationMmPerDay := 10.8;
         fertilizerKgPerHa := 15;
         livestockDensityPerHa := 2;
         cropType := Some "Corn"%string;
         soilType := Some "Loam"%string;
         farmingMethod := None |}
      example_bundle = Normal r
    /\ waterEfficiencyScore r = 70
    /\ emits "Water Management" (recommendations r) = true.
Proof.
  eexists. split; [vm_compute; reflexivity | ].
  cbn. split; reflexivity.
Qed.

(** ** The worked example *)

(** In binary64 the product 100 x 1.0 x 1.1 is not 110 but the next
    double above it. *)
Lemma base_yield_binary64 :
  Binary64.product Binary64.Corn Binary64.Loam Binary64.cool
  = Binary64.above_110
  /\ PrimFloat.ltb Binary64.exactly_110 Binary64.above_110 = true
  /\ PrimFloat.eqb Binary64.exactly_110 Binary64.above_110 = false.
Proof. repeat split. Qed.




(** ** The environmental-data endpoint *)

Lemma GET_falsy (world : NasaRoute.World) (request : NasaRoute.Request) :
  NasaRoute.falsy (NasaRoute.get (NasaRoute.searchParams request) "lat")
  || NasaRoute.falsy (NasaRoute.get (NasaRoute.searchParams request) "lon")
  = true ->
  NasaRoute.GET world request
  = Response_json
      (ErrorPayload "Missing required query params: lat, lon" None) 400.
Proof.
  intros H. unfold NasaRoute.GET. cbv zeta. now rewrite H.
Qed.

Lemma GET_truthy (world : NasaRoute.World) (request : NasaRoute.Request) :
  NasaRoute.falsy (NasaRoute.get (NasaRoute.searchParams request) "lat")
  || NasaRoute.falsy (NasaRoute.get (NasaRoute.searchParams request) "lon")
  = false ->
  exists bundle,
    NasaRoute.GET world request = Response_json (ResultPayload bundle) 200
    /\ NasaRoute.Bundle.location bundle
       = {| NasaRoute.lat :=
              Number (NasaRoute.get (NasaRoute.searchParams request) "lat");
            NasaRoute.lon :=
              Number (NasaRoute.get (NasaRoute.searchParams request) "lon") |}.
Proof.
  intros H. unfold NasaRoute.GET. cbv zeta. rewrite H.
  cbn [bind try_catch]. eexists. split; reflexivity.
Qed.

(** C9: for every request in which the lat or the lon query parameter is
    absent, the endpoint answers 400 with a payload holding an error
    field, and no data bundle. *)
Theorem missing_coordinates (world : NasaRoute.World)
  (request : NasaRoute.Request) :
  NasaRoute.get (NasaRoute.searchParams request) "lat" = None
  \/ NasaRoute.get (NasaRoute.searchParams request) "lon" = None ->
  status (NasaRoute.GET world request) = 400%Z
  /\ has_error_field (NasaRoute.GET world request) = true
  /\ forall bundle, json (NasaRoute.GET world request) <> ResultPayload bundle.
Proof.
  intros H. rewrite GET_falsy.
  - repeat split. discriminate.
  - destruct H as [-> | ->]; cbn; [reflexivity | apply orb_true_r].
Qed.

Lemma missing_coordinates_witness :
  status (NasaRoute.GET example_world query_without_lon) = 400%Z
  /\ has_error_field (NasaRoute.GET example_world query_without_lon) = true
  /\ forall bundle,
       json (NasaRoute.GET example_world query_without_lon)
       <> ResultPayload bundle.
Proof.
  apply (missing_coordinates example_world query_without_lon).
  right. reflexivity.
Defined.

(** C3, as stated, fails on lat=abc, lon=xyz: both convert to NaN and the
    endpoint answers 200 with a bundle. *)
Lemma malformed_coordinates_not_as_stated : ~ malformed_coordinates_as_stated.
Proof.
  intros H.
  destruct (H example_world lettered_query "abc" "xyz")%string as [Hs _];
    try reflexivity.
  - left. reflexivity.
  - discriminate Hs.
Qed.

(** C3, amended: for every request in which lat and lon are both present
    and not empty, the endpoint answers 200 with a data bundle whatever
    the two texts are, finite numbers or not, its location holding their
    conversions; its only error answer is the 400 given exactly when lat
    or lon is absent or empty. *)
Theorem coordinates_not_validated (world : NasaRoute.World)
  (request : NasaRoute.Request) :
  let latitude := NasaRoute.get (NasaRoute.searchParams request) "lat" in
  let longitude := NasaRoute.get (NasaRoute.searchParams request) "lon" in
  let response := NasaRoute.GET world request in
  (NasaRoute.falsy latitude || NasaRoute.falsy longitude = false ->
   status response = 200%Z
   /\ has_error_field response = false
   /\ exists bundle,
        json response = ResultPayload bundle
        /\ NasaRoute.Bundle.location bundle
           = {| NasaRoute.lat := Number latitude;
                NasaRoute.lon := Number longitude |})
  /\ (NasaRoute.falsy latitude || NasaRoute.falsy longitude = true ->
      status response = 400%Z /\ has_error_field response = true)
  /\ (status response = 400%Z <->
      NasaRoute.falsy latitude || NasaRoute.falsy longitude = true)
  /\ status response <> 500%Z.
Proof.
  cbv zeta.
  destruct (NasaRoute.falsy (NasaRoute.get (NasaRoute.searchParams request) "lat")
            || NasaRoute.falsy (NasaRoute.get (NasaRoute.searchParams request) "lon"))
    eqn:E.
  - rewrite (GET_falsy world request E).
    repeat split; try discriminate; reflexivity.
  - destruct (GET_truthy world request E) as (bundle & -> & Hloc).
    repeat split; try discriminate.
    exists bundle. split; [reflexivity | exact Hloc].
Qed.

Lemma coordinates_not_validated_witness :
  status (NasaRoute.GET example_world lettered_query) = 200%Z
  /\ exists bundle,
       json (NasaRoute.GET example_world lettered_query) = ResultPayload bundle
       /\ NasaRoute.Bundle.location bundle
          = {| NasaRoute.lat := NaN; NasaRoute.lon := NaN |}.
Proof.
  destruct (coordinates_not_validated example_world lettered_query)
    as (H & _).
  destruct (H eq_refl) as (Hs & _ & Hb).
  split; [exact Hs | exact Hb].
Defined.

(** ** The simulation endpoint *)

(** The guard on the parsed body answers 400 for a body that parses to a
    falsy value, such as the text [null]. *)
Lemma falsy_body_is_400
  (JSON_parse : string -> completion (option PlayerChoices))
  (nasa : completion any) (text : string) :
  JSON_parse text = Normal None ->
  POST JSON_parse nasa {| SimulateRoute.body := Some text |}
  = Normal (Response_json (ErrorPayload "Missing request body" None) 400).
Proof.
  intros H. unfold POST, request_json. cbn. now rewrite H.
Qed.

(** A failure of the fetch or of the simulation is answered with 500. *)
Lemma simulation_failure_is_500
  (JSON_parse : string -> completion (option PlayerChoices))
  (text : string) (choices : PlayerChoices) (e : Error) :
  JSON_parse text = Normal (Some choices) ->
  POST JSON_parse (Throw e) {| SimulateRoute.body := Some text |}
  = Normal (Response_json (ErrorPayload "Simulation failed" (Some e)) 500).
Proof.
  intros H. unfold POST, request_json. cbn. now rewrite H.
Qed.

(** C2, on the code: a request without a body never reaches the guard
    that answers 400.  Reading the body as JSON fails on the empty text,
    outside the handler's [try], and the handler rejects with that
    [SyntaxError]: no response, and no error payload, is produced. *)
Theorem missing_body_rejects
  (JSON_parse : string -> completion (option PlayerChoices))
  (nasa : completion any) :
  JSON_parse EmptyString = Throw SyntaxError ->
  POST JSON_parse nasa request_without_body = Throw SyntaxError
  /\ forall response,
       POST JSON_parse nasa request_without_body <> Normal response.
Proof.
  intros H. unfold POST, request_json, request_without_body.
  cbn. rewrite H. cbn. split; [reflexivity | discriminate].
Qed.

Lemma missing_body_rejects_witness :
  POST parse_falsy_literals (fetch_nasaData example_world) request_without_body
  = Throw SyntaxError
  /\ forall response,
       POST parse_falsy_literals (fetch_nasaData example_world)
         request_without_body
       <> Normal response.
Proof.
  apply (missing_body_rejects parse_falsy_literals (fetch_nasaData example_world)).
  reflexivity.
Defined.

(** ** Crop and soil names outside the enumerations *)

Lemma own_property_outside (table : list (string * Q)) (key : string) :
  ~ In key (map fst table) -> own_property table key = None.
Proof.
  induction table as [ | [k v] rest IH]; cbn; [reflexivity | ].
  intros H. destruct (String.eqb k key) eqn:E.
  - apply String.eqb_eq in E. tauto.
  - apply IH. tauto.
Qed.

Lemma get_property_outside (table : list (string * Q)) (key : string) :
  ~ In key (map fst table) -> inherited key = false ->
  get_property table key = VUndefined.
Proof.
  intros H Hi. unfold get_property.
  now rewrite own_property_outside, Hi.
Qed.

(** A name that is neither in the enumerations nor inherited from
    [Object.prototype] falls back: base multiplier 100, soil factor 1.0,
    retention 0.8, as for Corn on Loam. *)
Lemma unknown_names_fall_back (crop soil : string) :
  ~ In crop crops -> inherited crop = false ->
  ~ In soil soils -> inherited soil = false ->
  (forall nasaData,
     calculateBaseYield crop soil nasaData
     = calculateBaseYield "Corn" "Loam" nasaData)
  /\ (forall fertilizerKg,
        calculateFertilizerImpact fertilizerKg soil
        = calculateFertilizerImpact fertilizerKg "Loam").
Proof.
  intros Hc Hci Hs Hsi. split.
  - intros nasaData. unfold calculateBaseYield.
    rewrite (get_property_outside cropMultipliers crop Hc Hci).
    rewrite (get_property_outside soilMultipliers soil Hs Hsi).
    reflexivity.
  - intros f. unfold calculateFertilizerImpact.
    rewrite (get_property_outside soilNutrientRetention soil Hs Hsi).
    reflexivity.
Qed.

Lemma unknown_names_scored_as_corn_on_loam (choices : PlayerChoices)
  (crop soil : string) (nasaData : any) :
  ~ In crop crops -> inherited crop = false ->
  ~ In soil soils -> inherited soil = false ->
  runComprehensiveSimulation
    (with_crop_and_soil choices (Some crop) (Some soil)) nasaData
  = runComprehensiveSimulation
      (with_crop_and_soil choices (Some "Corn"%string) (Some "Loam"%string))
      nasaData.
Proof.
  intros Hc Hci Hs Hsi.
  assert (Hcrop :
    or_value (get_property cropMultipliers (or_string (Some crop) "Corn")) 100
    = VNumber (Num 100)).
  { destruct crop; cbn [or_string]; [reflexivity | ].
    now rewrite get_property_outside. }
  assert (Hfactor :
    or_value (get_property soilMultipliers (or_string (Some soil) "Loam")) 1.0
    = VNumber (Num 1.0)).
  { destruct soil; cbn [or_string]; [reflexivity | ].
    now rewrite get_property_outside. }
  assert (Hretention :
    or_value (get_property soilNutrientRetention (or_string (Some soil) "Loam")) 0.8
    = VNumber (Num 0.8)).
  { destruct soil; cbn [or_string]; [reflexivity | ].
    now rewrite get_property_outside. }
  unfold runComprehensiveSimulation, with_crop_and_soil,
    calculateBaseYield, calculateFertilizerImpact.
  cbn [cropType soilType irrigationMmPerDay fertilizerKgPerHa
       livestockDensityPerHa].
  rewrite Hcrop, Hfactor, Hretention. reflexivity.
Qed.

(** C10, on the code: a crop or soil name that [Object.prototype] also
    holds, such as "constructor", is not scored as Corn on Loam.  The
    lookup finds the inherited function, the fallback does not apply, and
    the base yield, the fertilizer boost and the yield score are [NaN]
    where Corn on Loam scores 123. *)
Theorem inherited_name_is_not_a_fallback :
  ~ In "constructor"%string crops
  /\ ~ In "constructor"%string soils
  /\ (forall nasaData,
        calculateBaseYield "constructor" "Loam" nasaData = NaN)
  /\ (forall nasaData,
        calculateBaseYield "Corn" "constructor" nasaData = NaN)
  /\ (forall fertilizerKg,
        FertilizerImpact.yieldBoost
          (calculateFertilizerImpact fertilizerKg "constructor") = NaN)
  /\ exists r r',
       runComprehensiveSimulation (example_choices_of_crop "constructor")
         example_bundle = Normal r
       /\ runComprehensiveSimulation (example_choices_of_crop "Corn")
            example_bundle = Normal r'
       /\ yieldScore r = NaN
       /\ yieldScore r' = 123.
Proof.
  split; [cbn; intuition discriminate | ].
  split; [cbn; intuition discriminate | ].
  split; [reflexivity | ].
  split.
  { intros nasaData. reflexivity. }
  split.
  { intros f. unfold calculateFertilizerImpact. cbn.
    now destruct (JS.mul f 0.5). }
  do 2 eexists.
  split; [vm_compute; reflexivity | ].
  split; [vm_compute; reflexivity | ].
  split; reflexivity.
Qed.

(** ** The two routes together *)

Lemma endpoint_bundle_has_drought_section (world : NasaRoute.World)
  (request : NasaRoute.Request) :
  NasaRoute.falsy (NasaRoute.get (NasaRoute.searchParams request) "lat")
  || NasaRoute.falsy (NasaRoute.get (NasaRoute.searchParams request) "lon")
  = false ->
  has_drought_section (NasaRoute.parsed (NasaRoute.GET world request)).
Proof.
  intros H. destruct (GET_truthy world request H) as (bundle & -> & _).
  unfold has_drought_section, NasaRoute.parsed. cbn.
  do 3 eexists. repeat split.
Qed.

(** On the bundle of its own endpoint the simulation returns, and the
    simulation endpoint answers 200 with the result. *)
Lemma simulation_endpoint_answers
  (JSON_parse : string -> completion (option PlayerChoices))
  (world : NasaRoute.World) (text : string) (choices : PlayerChoices) :
  JSON_parse text = Normal (Some choices) ->
  exists result,
    POST JSON_parse (fetch_nasaData world) {| SimulateRoute.body := Some text |}
    = Normal (Response_json (ResultPayload result) 200).
Proof.
  intros H. unfold POST, request_json, fetch_nasaData. cbn [SimulateRoute.body].
  rewrite H. cbn [bind].
  match goal with
  | |- context [runComprehensiveSimulation ?c ?n] =>
      destruct (simulation_returns c n) as [r ->]
  end.
  - now apply endpoint_bundle_has_drought_section.
  - cbn. eauto.
Qed.

(** * Further properties of the two routes *)

(** ** Rounding *)

Lemma round_lower (a : Z) (n : number) :
  JS.le (inject_Z a) n = true -> JS.le (inject_Z a) (Math.round n) = true.
Proof.
  destruct n as [ | | | q]; cbn [Math.round JS.le]; try tauto.
  rewrite !Qle_bool_iff. intros H.
  rewrite <- Zle_Qle. rewrite <- (Qfloor_Z a).
  apply Qfloor_resp_le. lra.
Qed.

Lemma round_monotone (a b : number) :
  JS.le a b = true -> JS.le (Math.round a) (Math.round b) = true.
Proof.
  destruct a as [ | | | x], b as [ | | | y]; cbn [Math.round JS.le]; try tauto.
  rewrite !Qle_bool_iff. intros H.
  rewrite <- Zle_Qle. apply Qfloor_resp_le. lra.
Qed.

Lemma in_range_Num (lo hi : Q) (n : number) :
  in_range lo hi n -> exists q, n = Num q /\ lo <= q <= hi.
Proof.
  unfold in_range. destruct n as [ | | | q]; cbn; intros [H1 H2];
    try discriminate.
  exists q. q_hyps. auto.
Qed.

(** ** Carbon footprint and economic viability *)

Lemma carbon_lower (choices : PlayerChoices) :
  valid choices -> JS.le 50 (calculateCarbonFootprint choices) = true.
Proof.
  intros (Hi & Hf & Hl & _). unfold calculateCarbonFootprint.
  apply (round_lower 50).
  destruct (non_negative_cases _ Hi) as [-> | (i & -> & Hi')],
    (non_negative_cases _ Hf) as [-> | (f & -> & Hf')],
    (non_negative_cases _ Hl) as [-> | (l & -> & Hl')];
    cbn; try reflexivity.
  apply Qle_bool_iff. unfold inject_Z. lra.
Qed.

Lemma viability_range (choices : PlayerChoices) (y : Q) :
  valid choices -> 0 <= y <= 145 ->
  in_range 0 73 (calculateEconomicViability choices y).
Proof.
  intros (Hi & Hf & Hl & _) Hy. unfold calculateEconomicViability.
  apply (round_in_range 0 73). unfold in_range, inject_Z.
  destruct (non_negative_cases _ Hi) as [-> | (i & -> & Hi')],
    (non_negative_cases _ Hf) as [-> | (f & -> & Hf')],
    (non_negative_cases _ Hl) as [-> | (l & -> & Hl')];
    cbn; q_auto; split; q_auto.
Qed.

(** The carbon footprint a simulation reports for valid parameters is at
    least its base of 50, and the economic viability lies between 0 and
    73: both are never negative. *)
Theorem cost_scores_never_negative (choices : PlayerChoices) (nasaData : any)
  (r : SimulationResult) :
  valid choices ->
  runComprehensiveSimulation choices nasaData = Normal r ->
  JS.le 50 (carbonFootprint r) = true
  /\ in_range 0 73 (economicViability r).
Proof.
  intros Hv Hr.
  destruct (simulation_scores _ _ _ Hr) as (_ & _ & _ & _ & -> & ->).
  split.
  - apply (round_lower 50), carbon_lower, Hv.
  - destruct (in_range_Num _ _ _ (yield_in_range choices nasaData Hv))
      as (y & -> & Hy).
    apply (round_in_range 0 73), viability_range; assumption.
Qed.

Lemma cost_scores_never_negative_witness :
  exists r,
    runComprehensiveSimulation example_choices example_bundle = Normal r
    /\ JS.le 50 (carbonFootprint r) = true
    /\ in_range 0 73 (economicViability r).
Proof.
  destruct example_run as (r & Hr & _).
  exists r. split; [exact Hr | ].
  apply (cost_scores_never_negative example_choices example_bundle r);
    [repeat split; cbn; auto | exact Hr].
Defined.


Lemma round_round_zero : Math.round (Math.round (Num 0)) =n= 0.
Proof. vm_compute. reflexivity. Qed.

(** Irrigation costs 18.25 a millimetre and livestock 20 a head, against
    a revenue of at most 72.5: from 4 mm/day, or from 4 animals per
    hectare, the economic viability a simulation reports is 0. *)
Theorem costs_exceed_revenue (choices : PlayerChoices) (nasaData : any)
  (r : SimulationResult) :
  valid choices ->
  JS.le 4 (irrigationMmPerDay choices) = true
  \/ JS.le 4 (livestockDensityPerHa choices) = true ->
  runComprehensiveSimulation choices nasaData = Normal r ->
  economicViability r =n= 0.
Proof.
  intros Hv Hcost Hr.
  destruct (simulation_scores _ _ _ Hr) as (_ & _ & _ & _ & _ & ->).
  destruct (in_range_Num _ _ _ (yield_in_range choices nasaData Hv))
    as (y & -> & Hy).
  destruct Hv as (Hi & Hf & Hl & _).
  unfold calculateEconomicViability.
  match goal with
  | |- Math.round (Math.round (Math.max _ ?x)) =n= _ =>
      assert (E : Math.max 0 x = Num 0)
  end.
  { destruct (non_negative_cases _ Hi) as [Ei | (i & Ei & Hi')],
      (non_negative_cases _ Hf) as [Ef | (f & Ef & Hf')],
      (non_negative_cases _ Hl) as [El | (l & El & Hl')];
      rewrite Ei, Ef, El in *; cbn in Hcost |- *; try reflexivity.
    destruct (Qle_bool 0 _) eqn:E; [ | reflexivity].
    exfalso. apply Qle_bool_iff in E.
    destruct Hcost as [H | H]; apply Qle_bool_iff in H; lra. }
  rewrite E. apply round_round_zero.
Qed.

Lemma costs_exceed_revenue_witness :
  exists r,
    runComprehensiveSimulation example_choices example_bundle = Normal r
    /\ economicViability r =n= 0.
Proof.
  destruct example_run as (r & Hr & _).
  exists r. split; [exact Hr | ].
  apply (costs_exceed_revenue example_choices example_bundle r);
    [repeat split; cbn; auto | left; reflexivity | exact Hr].
Defined.

(** ** When the simulation throws *)

(** Whatever the choices, the simulation returns a result when the bundle
    has a drought section and throws a [TypeError] when it has none, as
    the error answer of the environmental endpoint does. *)
Theorem simulation_needs_drought_section (choices : PlayerChoices)
  (nasaData : any) :
  (has_drought_section nasaData ->
   exists r, runComprehensiveSimulation choices nasaData = Normal r)
  /\ (~ has_drought_section nasaData ->
      runComprehensiveSimulation choices nasaData = Throw TypeError)
  /\ runComprehensiveSimulation choices no_data = Throw TypeError
  /\ runComprehensiveSimulation choices None = Throw TypeError.
Proof.
  split; [apply simulation_returns | ].
  split; [apply simulation_throws | ].
  split; apply simulation_throws; intros (n & d & dr & Hn & Hd & Hdr);
    [injection Hn as <-; discriminate Hd | discriminate Hn].
Qed.

(** ** The comparison with the baseline *)

(** The benchmark compares the unrounded yield with the baseline 100:
    "Above Average" above 110, "Average" above 100 and up to 110, "Below
    Average" up to 100 and for a yield that is no number. *)
Theorem benchmark_thresholds (choices : PlayerChoices) (y : Q) :
  let comparison := generateComparisonData choices y in
  (110 < y -> benchmark comparison = "Above Average"%string)
  /\ (100 < y <= 110 -> benchmark comparison = "Average"%string)
  /\ (y <= 100 -> benchmark comparison = "Below Average"%string)
  /\ benchmark (generateComparisonData choices NaN) = "Below Average"%string.
Proof.
  cbv zeta. unfold generateComparisonData.
  cbn [benchmark improvement JS.sub JS.add JS.neg JS.div JS.mul JS.gt JS.lt].
  assert (E : (y + - (100)) / 100 * 100 == y - 100) by field.
  change (Qeq_bool 100 0) with false. cbv iota. cbn [JS.mul].
  assert (E10 : Qle_bool ((y + - (100)) / 100 * 100) 10 = Qle_bool (y - 100) 10)
    by now rewrite E.
  assert (E0 : Qle_bool ((y + - (100)) / 100 * 100) 0 = Qle_bool (y - 100) 0)
    by now rewrite E.
  rewrite E10, E0.
  repeat split; try (intros H; q_auto; reflexivity).
Qed.

(** ** Water efficiency and the water recommendation *)

Lemma emits_water_management (choices : PlayerChoices) (nasaData : any)
  (scores : Scores.t) :
  emits "Water Management"
    (generateDetailedRecommendations choices nasaData scores)
  = JS.lt (Scores.waterEfficiencyScore scores) 70.
Proof.
  unfold generateDetailedRecommendations.
  destruct (JS.lt (Scores.waterEfficiencyScore scores) 70),
    (JS.gt (fertilizerKgPerHa choices) 20),
    (JS.gt (livestockDensityPerHa choices) 3); reflexivity.
Qed.

Lemma water_score_bounds (irrigation : Q) (nasaData : any) :
  0 <= irrigation ->
  let score := calculateWaterEfficiencyScore irrigation nasaData in
  (3 <= irrigation <= 7 -> score =n= 100)
  /\ (irrigation <= 10.75 -> JS.lt score 70 = false)
  /\ (12 < irrigation -> JS.lt score 70 = true).
Proof.
  intros Hi. cbv zeta. unfold calculateWaterEfficiencyScore.
  destruct (or_number_Num
              (nasaData ?. Json.data ?. Json.power ?. Json.precipitation)
              15) as [p ->].
  cbn [JS.lt JS.gt JS.sub JS.add JS.neg JS.mul JS.div Math.abs].
  change (Qeq_bool 30 0) with false. cbv iota.
  generalize (Qabs (irrigation + - (p / 30))). intros a.
  repeat split; intros H; cbn; q_auto.
Qed.

(** Under-irrigation never triggers the water recommendation: for an
    irrigation from 0 to 10.75 mm/day a simulation emits no Water
    Management record, whatever the bundle, and above 12 mm/day it always
    emits one; within the band from 3 to 7 the score before rounding is
    100. *)
Theorem water_management_range (choices : PlayerChoices) (nasaData : any)
  (irrigation : Q) (r : SimulationResult) :
  0 <= irrigation ->
  runComprehensiveSimulation (with_irrigation choices irrigation) nasaData
  = Normal r ->
  (3 <= irrigation <= 7 ->
   calculateWaterEfficiencyScore irrigation nasaData =n= 100)
  /\ (irrigation <= 10.75 ->
      emits "Water Management" (recommendations r) = false)
  /\ (12 < irrigation ->
      emits "Water Management" (recommendations r) = true).
Proof.
  intros Hi Hr.
  destruct (simulation_lists _ _ _ Hr) as [_ ->].
  rewrite emits_water_management. cbn [scores_of Scores.waterEfficiencyScore
    with_irrigation irrigationMmPerDay].
  apply (water_score_bounds irrigation nasaData Hi).
Qed.

Lemma water_management_range_witness :
  exists r,
    runComprehensiveSimulation (with_irrigation example_choices 5) example_bundle
    = Normal r
    /\ emits "Water Management" (recommendations r) = false.
Proof.
  destruct (simulation_returns (with_irrigation example_choices 5) example_bundle)
    as [r Hr].
  - do 3 eexists. repeat split.
  - exists r. split; [exact Hr | ].
    apply (water_management_range example_choices example_bundle 5 r);
      [vm_compute; discriminate | exact Hr | vm_compute; discriminate].
Defined.

(** ** How the yield responds to the three quantities *)

Lemma irrigation_boost_monotone (a b : Q) (nasaData : any) :
  a <= b ->
  exists x y,
    IrrigationImpact.yieldBoost (calculateIrrigationImpact a nasaData) = Num x
    /\ IrrigationImpact.yieldBoost (calculateIrrigationImpact b nasaData) = Num y
    /\ x <= y.
Proof.
  intros H. unfold calculateIrrigationImpact.
  destruct (or_number_Num
              (nasaData ?. Json.data ?. Json.smap ?. Json.soilMoistureRootZone)
              0.3) as [m ->].
  cbn; q_auto; (do 2 eexists; split; [reflexivity | split; [reflexivity | q_auto]]).
Qed.

Lemma fertilizer_boost_monotone (a b : Q) (soil : string) :
  In soil soils -> a <= b ->
  exists x y,
    FertilizerImpact.yieldBoost (calculateFertilizerImpact a soil) = Num x
    /\ FertilizerImpact.yieldBoost (calculateFertilizerImpact b soil) = Num y
    /\ x <= y /\ y <= 15.
Proof.
  intros Hs H. unfold calculateFertilizerImpact. cbn [soils In] in Hs.
  repeat (destruct Hs as [<- | Hs]; [ | try contradiction ]);
    cbn; q_auto;
    (do 2 eexists; split; [reflexivity | split; [reflexivity | q_auto]]).
Qed.

(** The fertilizer boost never decreases with the amount and is capped at
    15, while the soil impact never increases: 0 up to 10 kg/ha, -2 up to
    20 and -5 beyond. *)
Theorem fertilizer_impact_monotone (a b : Q) (soil : string) :
  In soil soils -> a <= b ->
  let low := calculateFertilizerImpact a soil in
  let high := calculateFertilizerImpact b soil in
  JS.le (FertilizerImpact.yieldBoost low) (FertilizerImpact.yieldBoost high) = true
  /\ JS.le (FertilizerImpact.yieldBoost high) 15 = true
  /\ JS.le (FertilizerImpact.soilImpact high) (FertilizerImpact.soilImpact low)
     = true
  /\ in_range (-5) 0 (FertilizerImpact.soilImpact high).
Proof.
  intros Hs H. cbv zeta.
  destruct (fertilizer_boost_monotone a b soil Hs H) as (x & y & -> & -> & Hxy & Hy).
  split; [now apply Qle_bool_iff | ].
  split; [now apply Qle_bool_iff | ].
  unfold calculateFertilizerImpact, in_range. cbn. q_auto; split; q_auto.
Qed.

Lemma fertilizer_impact_monotone_witness :
  JS.le (FertilizerImpact.yieldBoost (calculateFertilizerImpact 15 "Loam"))
        (FertilizerImpact.yieldBoost (calculateFertilizerImpact 40 "Loam"))
  = true
  /\ JS.le (FertilizerImpact.yieldBoost (calculateFertilizerImpact 40 "Loam")) 15
     = true.
Proof.
  destruct (fertilizer_impact_monotone 15 40 "Loam") as (H1 & H2 & _).
  - cbn. auto.
  - vm_compute. discriminate.
  - split; [exact H1 | exact H2].
Defined.

(** For valid parameters the reported yield score never decreases when
    irrigation or fertilizer is raised and never increases when livestock
    density is raised, the rest and the bundle being equal. *)
Theorem yield_responds_monotonically (choices : PlayerChoices) (nasaData : any)
  (a b : Q) :
  valid choices -> 0 <= a <= b ->
  (forall r r',
     runComprehensiveSimulation (with_irrigation choices a) nasaData = Normal r ->
     runComprehensiveSimulation (with_irrigation choices b) nasaData = Normal r' ->
     JS.le (yieldScore r) (yieldScore r') = true)
  /\ (forall r r',
        runComprehensiveSimulation (with_fertilizer choices a) nasaData = Normal r ->
        runComprehensiveSimulation (with_fertilizer choices b) nasaData = Normal r' ->
        JS.le (yieldScore r) (yieldScore r') = true)
  /\ (forall r r',
        runComprehensiveSimulation (with_livestock choices a) nasaData = Normal r ->
        runComprehensiveSimulation (with_livestock choices b) nasaData = Normal r' ->
        JS.le (yieldScore r') (yieldScore r) = true).
Proof.
  intros (Hi & Hf & Hl & Hc & Hs) [Ha Hab].
  assert (Hcrop : In (or_string (cropType choices) "Corn") crops)
    by (apply or_string_within; cbn; intuition discriminate).
  assert (Hsoil : In (or_string (soilType choices) "Loam") soils)
    by (apply or_string_within; cbn; intuition discriminate).
  destruct (baseYield_range _ _ nasaData Hcrop Hsoil) as (base & Hbase & _).
  destruct (irrigation_boost_range _ nasaData Hi) as (bi & Hbi & _).
  destruct (fertilizer_boost_range _ _ Hf Hsoil) as (bf & Hbf & _).
  split; [ | split]; intros r r' Hr Hr';
    destruct (simulation_scores _ _ _ Hr) as (-> & _);
    destruct (simulation_scores _ _ _ Hr') as (-> & _);
    apply round_monotone; unfold yield_before_rounding;
    cbn [with_irrigation with_fertilizer with_livestock irrigationMmPerDay
         fertilizerKgPerHa livestockDensityPerHa cropType soilType
         calculateLivestockImpact LivestockImpact.yieldReduction];
    rewrite Hbase.
  - destruct (irrigation_boost_monotone a b nasaData Hab) as (x & y & -> & -> & Hxy).
    rewrite Hbf.
    destruct (non_negative_cases _ Hl) as [-> | (l & -> & _)];
      cbn; q_auto.
  - destruct (fertilizer_boost_monotone a b _ Hsoil Hab) as (x & y & -> & -> & Hxy & _).
    rewrite Hbi.
    destruct (non_negative_cases _ Hl) as [-> | (l & -> & _)];
      cbn; q_auto.
  - rewrite Hbi, Hbf. cbn; q_auto.
Qed.

Lemma yield_responds_monotonically_witness :
  (forall r r',
     runComprehensiveSimulation (with_irrigation example_choices 5) example_bundle
     = Normal r ->
     runComprehensiveSimulation (with_irrigation example_choices 10) example_bundle
     = Normal r' ->
     JS.le (yieldScore r) (yieldScore r') = true)
  /\ (forall r r',
        runComprehensiveSimulation (with_livestock example_choices 5) example_bundle
        = Normal r ->
        runComprehensiveSimulation (with_livestock example_choices 10) example_bundle
        = Normal r' ->
        JS.le (yieldScore r') (yieldScore r) = true).
Proof.
  destruct (yield_responds_monotonically example_choices example_bundle 5 10)
    as (Hi & _ & Hl).
  - repeat split; cbn; auto.
  - split; vm_compute; discriminate.
  - split; [exact Hi | exact Hl].
Defined.

(** ** Soil health and sustainability as functions of the quantities *)

(** Soil health is best for a fertilizer amount from 5 to 25 kg/ha: with
    the other parameters (the livestock density a number) and the bundle
    fixed, no amount scores higher than one in that band. *)
Theorem soil_health_best_band (choices : PlayerChoices) (nasaData : any)
  (fertilizer : number) (moderate : Q) :
  5 <= moderate <= 25 ->
  livestockDensityPerHa choices <> NaN ->
  JS.le (calculateSoilHealthScore (with_fertilizer choices fertilizer) nasaData)
        (calculateSoilHealthScore (with_fertilizer choices moderate) nasaData)
  = true.
Proof.
  intros [Hlo Hhi] Hl. unfold calculateSoilHealthScore, with_fertilizer.
  cbn [fertilizerKgPerHa livestockDensityPerHa irrigationMmPerDay].
  destruct (or_number_Num
              (nasaData ?. Json.data ?. Json.smap ?. Json.soilMoistureRootZone)
              0.3) as [m ->].
  assert (E1 : JS.gt moderate 25 = false)
    by (cbn; apply negb_false_iff, Qle_bool_iff; exact Hhi).
  assert (E2 : JS.lt moderate 5 = false)
    by (cbn; apply negb_false_iff, Qle_bool_iff; exact Hlo).
  rewrite E1, E2. clear E1 E2.
  generalize (JS.gt m 0.3) (JS.lt m 0.2). intros wet dry.
  destruct (JS.gt fertilizer 25), (JS.lt fertilizer 5),
    (JS.gt (irrigationMmPerDay choices) 10), wet, dry;
    destruct (livestockDensityPerHa choices) as [ | | | l]; try easy;
    cbn; q_auto.
Qed.

Lemma soil_health_best_band_witness :
  JS.le (calculateSoilHealthScore (with_fertilizer example_choices 2) example_bundle)
        (calculateSoilHealthScore (with_fertilizer example_choices 15) example_bundle)
  = true.
Proof.
  apply (soil_health_best_band example_choices example_bundle 2 15);
    [split; vm_compute; discriminate | discriminate].
Defined.

(** Case analysis on the threshold tests made on a field of the choices
    and on a reading, leaving tests on given numbers to be computed. *)
Ltac field_cases :=
  repeat match goal with
    | |- context [JS.gt (?f ?c) ?t] =>
        match type of c with PlayerChoices => destruct (JS.gt (f c) t) end
    | |- context [JS.lt (?f ?c) ?t] =>
        match type of c with PlayerChoices => destruct (JS.lt (f c) t) end
    | |- context [JS.gt (ToNumber_reading ?r) ?t] =>
        destruct (JS.gt (ToNumber_reading r) t)
    end.

Lemma sustainability_as_sum (choices : PlayerChoices) (nasaData : any) :
  calculateSustainabilityScore choices nasaData
  =n= Num (sustainability_spec
             (irrigationMmPerDay choices) (fertilizerKgPerHa choices)
             (livestockDensityPerHa choices)
             (nasaData ?. Json.data ?. Json.modis ?. Json.ndvi)
             (nasaData ?. Json.data ?. Json.smap ?. Json.soilMoistureRootZone)).
Proof.
  unfold calculateSustainabilityScore, sustainability_spec.
  assert (E : forall r t, JS.gt (ToNumber_reading r) (Num t) = exceeds r t)
    by (intros [q | ] t; reflexivity).
  rewrite !E.
  destruct (JS.gt (irrigationMmPerDay choices) 8),
    (JS.gt (irrigationMmPerDay choices) 5),
    (JS.gt (fertilizerKgPerHa choices) 30),
    (JS.gt (fertilizerKgPerHa choices) 20),
    (JS.gt (livestockDensityPerHa choices) 5),
    (JS.gt (livestockDensityPerHa choices) 3),
    (exceeds (nasaData ?. Json.data ?. Json.modis ?. Json.ndvi) 0.7),
    (exceeds (nasaData ?. Json.data ?. Json.smap ?. Json.soilMoistureRootZone) 0.3);
    vm_compute; reflexivity.
Qed.

Lemma clamp_monotone (x y : Q) :
  x <= y -> Qmax 0 (Qmin 100 x) <= Qmax 0 (Qmin 100 y).
Proof.
  intros H. unfold Qmax, Qmin.
  destruct (Qle_bool 100 x) eqn:A, (Qle_bool 100 y) eqn:B; q_hyps;
    q_cases; lra.
Qed.

Lemma sustainability_order (c c' : PlayerChoices) (nasaData : any) :
  sustainability_spec
    (irrigationMmPerDay c') (fertilizerKgPerHa c') (livestockDensityPerHa c')
    (nasaData ?. Json.data ?. Json.modis ?. Json.ndvi)
    (nasaData ?. Json.data ?. Json.smap ?. Json.soilMoistureRootZone)
  <= sustainability_spec
       (irrigationMmPerDay c) (fertilizerKgPerHa c) (livestockDensityPerHa c)
       (nasaData ?. Json.data ?. Json.modis ?. Json.ndvi)
       (nasaData ?. Json.data ?. Json.smap ?. Json.soilMoistureRootZone) ->
  JS.le (calculateSustainabilityScore c' nasaData)
        (calculateSustainabilityScore c nasaData) = true.
Proof.
  intros Hle.
  pose proof (sustainability_as_sum c' nasaData) as E'.
  pose proof (sustainability_as_sum c nasaData) as E.
  destruct (calculateSustainabilityScore c' nasaData) as [ | | | x'];
    try contradiction.
  destruct (calculateSustainabilityScore c nasaData) as [ | | | x];
    try contradiction.
  unfold JS.eq in E, E'. unfold JS.le. apply Qle_bool_iff.
  rewrite E, E'. exact Hle.
Qed.

(** Raising irrigation, fertilizer or livestock density never raises the
    sustainability score, the rest and the bundle being equal. *)
Theorem sustainability_never_rewards_more_input (choices : PlayerChoices)
  (nasaData : any) (a b : Q) :
  a <= b ->
  JS.le (calculateSustainabilityScore (with_irrigation choices b) nasaData)
        (calculateSustainabilityScore (with_irrigation choices a) nasaData) = true
  /\ JS.le (calculateSustainabilityScore (with_fertilizer choices b) nasaData)
           (calculateSustainabilityScore (with_fertilizer choices a) nasaData) = true
  /\ JS.le (calculateSustainabilityScore (with_livestock choices b) nasaData)
           (calculateSustainabilityScore (with_livestock choices a) nasaData) = true.
Proof.
  intros H.
  repeat split; apply sustainability_order;
    unfold with_irrigation, with_fertilizer, with_livestock;
    cbn [irrigationMmPerDay fertilizerKgPerHa livestockDensityPerHa];
    unfold sustainability_spec; cbv zeta;
    repeat match goal with
      | |- context [if JS.gt (?g choices) ?t then ?x
                    else if JS.gt (?g choices) ?u then ?y else ?z] =>
          generalize (if JS.gt (g choices) t then x
                      else if JS.gt (g choices) u then y else z : Q); intro
      | |- context [if exceeds ?r ?t then ?x else ?y] =>
          generalize (if exceeds r t then x else y : Q); intro
      end;
    cbn [JS.gt JS.lt]; q_cases; cbn [negb]; apply clamp_monotone; lra.
Qed.

Lemma sustainability_never_rewards_more_input_witness :
  JS.le (calculateSustainabilityScore (with_irrigation example_choices 9) example_bundle)
        (calculateSustainabilityScore (with_irrigation example_choices 5) example_bundle)
  = true.
Proof.
  apply (sustainability_never_rewards_more_input example_choices example_bundle 5 9).
  vm_compute. discriminate.
Defined.

(** ** The parts of a result agree with one another *)

Lemma simulation_analyses (choices : PlayerChoices) (nasaData : any)
  (r : SimulationResult) :
  runComprehensiveSimulation choices nasaData = Normal r ->
  comparison r
  = generateComparisonData choices (yield_before_rounding choices nasaData)
  /\ livestockImpact r
     = analyzeLivestockEffects (livestockDensityPerHa choices) nasaData
  /\ irrigationAnalysis r
     = analyzeIrrigationEffects (irrigationMmPerDay choices) nasaData
  /\ soilHealthMetrics r = analyzeSoilHealth choices nasaData.
Proof.
  unfold runComprehensiveSimulation. cbv zeta.
  match goal with
  | |- context [generateComprehensiveInsights ?c ?n ?s] =>
      destruct (generateComprehensiveInsights c n s) as [l | e]
  end; cbn [bind]; intros H; [ | discriminate H].
  injection H as <-. cbn. repeat split.
Qed.

Lemma emits_by_fields (choices : PlayerChoices) (nasaData : any)
  (scores : Scores.t) :
  emits "Nutrient Management"
    (generateDetailedRecommendations choices nasaData scores)
  = JS.gt (fertilizerKgPerHa choices) 20
  /\ emits "Livestock Management"
       (generateDetailedRecommendations choices nasaData scores)
     = JS.gt (livestockDensityPerHa choices) 3.
Proof.
  unfold generateDetailedRecommendations.
  destruct (JS.lt (Scores.waterEfficiencyScore scores) 70),
    (JS.gt (fertilizerKgPerHa choices) 20),
    (JS.gt (livestockDensityPerHa choices) 3); split; reflexivity.
Qed.

Lemma gt_weaker (n : number) (a b : Q) :
  b <= a -> JS.gt n a = true -> JS.gt n b = true.
Proof.
  intros H. destruct n as [ | | | q]; cbn; try easy.
  intros Hq. q_auto.
Qed.

(** In every result the recommendations agree with the analyses: a
    Nutrient Management record is present exactly when the nutrient level
    is reported "High", a Livestock Management record exactly when the
    livestock analysis lists concerns, concerns never come without
    benefits, and a "High" water stress comes with Drip Irrigation and a
    water saving of 20. *)
Theorem result_parts_agree (choices : PlayerChoices) (nasaData : any)
  (r : SimulationResult) :
  runComprehensiveSimulation choices nasaData = Normal r ->
  (emits "Nutrient Management" (recommendations r) = true
   <-> nutrientLevel (soilHealthMetrics r) = "High"%string)
  /\ (emits "Livestock Management" (recommendations r) = true
      <-> LivestockAnalysis.concerns (livestockImpact r) <> [])
  /\ (LivestockAnalysis.concerns (livestockImpact r) <> [] ->
      LivestockAnalysis.benefits (livestockImpact r) <> [])
  /\ (waterStress (irrigationAnalysis r) = "High"%string ->
      recommendedMethod (irrigationAnalysis r) = "Drip Irrigation"%string
      /\ waterSavings (irrigationAnalysis r) = 20).
Proof.
  intros Hr.
  destruct (simulation_lists _ _ _ Hr) as [_ ->].
  destruct (simulation_analyses _ _ _ Hr) as (_ & -> & -> & ->).
  destruct (emits_by_fields choices nasaData (scores_of choices nasaData))
    as [-> ->].
  unfold analyzeSoilHealth, analyzeLivestockEffects, analyzeIrrigationEffects.
  cbn [nutrientLevel LivestockAnalysis.concerns LivestockAnalysis.benefits
       waterStress recommendedMethod waterSavings].
  split; [ | split; [ | split]].
  - destruct (JS.gt (fertilizerKgPerHa choices) 20);
      [easy | destruct (JS.gt (fertilizerKgPerHa choices) 10); easy].
  - destruct (JS.gt (livestockDensityPerHa choices) 3); easy.
  - destruct (JS.gt (livestockDensityPerHa choices) 3) eqn:E; [ | easy].
    rewrite (gt_weaker _ 3 0); [easy | lra | exact E].
  - destruct (JS.gt (irrigationMmPerDay choices) 8) eqn:E.
    + rewrite (gt_weaker _ 8 6), (gt_weaker _ 8 7); [easy | lra | exact E | lra | exact E].
    + destruct (JS.gt (irrigationMmPerDay choices) 5); discriminate.
Qed.

Lemma result_parts_agree_witness :
  exists r,
    runComprehensiveSimulation example_choices example_bundle = Normal r
    /\ (emits "Nutrient Management" (recommendations r) = true
        <-> nutrientLevel (soilHealthMetrics r) = "High"%string).
Proof.
  destruct example_run as (r & Hr & _).
  exists r. split; [exact Hr | ].
  apply (result_parts_agree example_choices example_bundle r Hr).
Defined.

(** ** The shape of the two lists *)

(** The recommendations hold each category at most once, in the order
    Water, Nutrient, Livestock Management; the water record alone has
    priority High, the others Medium. *)
Theorem recommendations_are_ordered (choices : PlayerChoices) (nasaData : any)
  (scores : Scores.t) :
  let records := generateDetailedRecommendations choices nasaData scores in
  map category records
  = filter (fun name => emits name records) recommendation_categories
  /\ forall record,
       In record records ->
       priority record
       = if String.eqb (category record) "Water Management" then High
         else Medium.
Proof.
  cbv zeta. unfold generateDetailedRecommendations.
  destruct (JS.lt (Scores.waterEfficiencyScore scores) 70),
    (JS.gt (fertilizerKgPerHa choices) 20),
    (JS.gt (livestockDensityPerHa choices) 3);
    (split; [reflexivity | cbn; intros record H; intuition (subst; reflexivity)]).
Qed.

(** The insight generator, when it returns, gives at most five insights;
    the drought insight is among them, naming the category, exactly when
    the bundle's drought category is not "None". *)
Theorem insights_and_drought (choices : PlayerChoices) (nasaData : any)
  (scores : Scores.t) (l : list string) :
  generateComprehensiveInsights choices nasaData scores = Normal l ->
  (length l <= 5)%nat
  /\ (forall category,
        nasaData ?. Json.data ?. Json.drought ?. Json.droughtCategory
        = Some category ->
        In (drought_message category) l <-> category <> "None"%string)
  /\ (nasaData ?. Json.data ?. Json.drought ?. Json.droughtCategory = None ->
      In (drought_message "undefined") l).
Proof.
  unfold generateComprehensiveInsights, droughtCategory_of.
  destruct nasaData as [n | ]; [ | discriminate].
  cbn [chain]. destruct (Json.data n) as [d | ]; [ | discriminate].
  cbn [chain]. destruct (Json.drought d) as [dr | ]; [ | discriminate].
  cbn [chain bind]. destruct (Json.droughtCategory dr) as [c | ].
  - destruct (String.eqb c "None") eqn:E; cbn [differs_from_None negb];
      rewrite E; cbn [negb bind interpolate];
      [apply String.eqb_eq in E | apply String.eqb_neq in E];
      field_cases; intros H; injection H as <-;
      (split; [cbn; lia | ]);
      (split; [ | discriminate]);
      intros category Hc; injection Hc as <-; unfold push, drought_message;
      cbn; intuition (try discriminate; try congruence).
  - cbn [differs_from_None bind interpolate].
    field_cases; intros H; injection H as <-;
      (split; [cbn; lia | ]);
      (split; [discriminate | ]);
      intros _; unfold push, drought_message; cbn; tauto.
Qed.

Lemma insights_and_drought_witness :
  exists l,
    generateComprehensiveInsights example_choices example_bundle
      (scores_of example_choices example_bundle) = Normal l
    /\ (length l <= 5)%nat.
Proof.
  eexists. split; [reflexivity | ].
  apply (insights_and_drought example_choices example_bundle
           (scores_of example_choices example_bundle)).
  reflexivity.
Defined.

(** ** The generated environmental data *)

Lemma GET_generated (world : NasaRoute.World) (request : NasaRoute.Request) :
  has_coordinates request ->
  exists bundle,
    NasaRoute.GET world request = Response_json (ResultPayload bundle) 200
    /\ NasaRoute.Bundle.data bundle = NasaRoute.data (generated world)
    /\ NasaRoute.Bundle.insights bundle = NasaRoute.insights (generated world)
    /\ NasaRoute.Bundle.recommendations bundle
       = NasaRoute.recommendations (generated world)
    /\ NasaRoute.Bundle.datasets bundle = NasaRoute.datasets (generated world)
    /\ NasaRoute.Bundle.timestamp bundle = NasaRoute.toISOString world.
Proof.
  unfold has_coordinates. intros H. unfold NasaRoute.GET. cbv zeta. rewrite H.
  cbn [bind try_catch]. eexists. split; [reflexivity | ].
  repeat split.
Qed.

(** The coordinates are required but never used: any two requests with
    coordinates, whatever the coordinates and the dataset parameter, are
    answered in one world with the same data, insights, recommendations,
    data set names and time stamp; only the echoed location differs. *)
Theorem coordinates_do_not_matter (world : NasaRoute.World)
  (request request' : NasaRoute.Request) :
  has_coordinates request -> has_coordinates request' ->
  exists bundle bundle',
    NasaRoute.GET world request = Response_json (ResultPayload bundle) 200
    /\ NasaRoute.GET world request' = Response_json (ResultPayload bundle') 200
    /\ NasaRoute.Bundle.data bundle = NasaRoute.Bundle.data bundle'
    /\ NasaRoute.Bundle.insights bundle = NasaRoute.Bundle.insights bundle'
    /\ NasaRoute.Bundle.recommendations bundle
       = NasaRoute.Bundle.recommendations bundle'
    /\ NasaRoute.Bundle.datasets bundle = NasaRoute.Bundle.datasets bundle'
    /\ NasaRoute.Bundle.timestamp bundle = NasaRoute.Bundle.timestamp bundle'.
Proof.
  intros H H'.
  destruct (GET_generated world request H) as (b & Hb & H1 & H2 & H3 & H4 & H5).
  destruct (GET_generated world request' H')
    as (b' & Hb' & H1' & H2' & H3' & H4' & H5').
  exists b, b'. repeat split; congruence.
Qed.

Lemma coordinates_do_not_matter_witness :
  exists bundle bundle',
    NasaRoute.GET example_world simulation_query
    = Response_json (ResultPayload bundle) 200
    /\ NasaRoute.GET example_world lettered_query
       = Response_json (ResultPayload bundle') 200
    /\ NasaRoute.Bundle.data bundle = NasaRoute.Bundle.data bundle'.
Proof.
  destruct (coordinates_do_not_matter example_world simulation_query lettered_query)
    as (b & b' & H & H' & Hd & _); [reflexivity | reflexivity | ].
  exists b, b'. repeat split; assumption.
Defined.

Lemma example_world_platform : platform example_world.
Proof.
  split.
  - intros k. cbn. split; [discriminate | reflexivity].
  - exists 0. split; [reflexivity | split; discriminate].
Qed.

(** With draws in [0, 1) and a sine in [-1, 1] the generated readings stay
    in fixed closed intervals: temperature 17.5 to 27.5, precipitation
    15.2 to 25.2, surface soil moisture 0.32 to 0.42, root-zone soil
    moisture 0.28 to 0.36, soil temperature 18.5 to 21.5 and vegetation
    index 0.65 to 0.8. *)
Theorem generated_readings_ranges (world : NasaRoute.World) :
  platform world ->
  let d := NasaRoute.baseData (NasaRoute.data (generated world)) in
  exists t p sf rz st nd : Q,
    NasaRoute.temperature2m (NasaRoute.power d) = Num t
    /\ NasaRoute.precipitation (NasaRoute.power d) = Num p
    /\ NasaRoute.soilMoistureSurface (NasaRoute.smap d) = Num sf
    /\ NasaRoute.soilMoistureRootZone (NasaRoute.smap d) = Num rz
    /\ NasaRoute.soilTemperature (NasaRoute.smap d) = Num st
    /\ NasaRoute.ndvi (NasaRoute.modis d) = Num nd
    /\ 17.5 <= t <= 27.5
    /\ 15.2 <= p <= 25.2
    /\ 0.32 <= sf <= 0.42
    /\ 0.28 <= rz <= 0.36
    /\ 18.5 <= st <= 21.5
    /\ 0.65 <= nd <= 0.8.
Proof.
  intros (Hdraw & s & Hs & Hs1). cbv zeta. cbn. rewrite Hs. cbn.
  do 6 eexists. do 6 (split; [reflexivity | ]).
  pose proof (Hdraw 0%nat). pose proof (Hdraw 4%nat). pose proof (Hdraw 5%nat).
  pose proof (Hdraw 6%nat). pose proof (Hdraw 7%nat).
  repeat split; lra.
Qed.

Lemma generated_readings_ranges_witness :
  let d := NasaRoute.baseData (NasaRoute.data (generated example_world)) in
  exists t p sf rz st nd : Q,
    NasaRoute.temperature2m (NasaRoute.power d) = Num t
    /\ NasaRoute.precipitation (NasaRoute.power d) = Num p
    /\ NasaRoute.soilMoistureSurface (NasaRoute.smap d) = Num sf
    /\ NasaRoute.soilMoistureRootZone (NasaRoute.smap d) = Num rz
    /\ NasaRoute.soilTemperature (NasaRoute.smap d) = Num st
    /\ NasaRoute.ndvi (NasaRoute.modis d) = Num nd
    /\ 17.5 <= t <= 27.5
    /\ 15.2 <= p <= 25.2
    /\ 0.32 <= sf <= 0.42
    /\ 0.28 <= rz <= 0.36
    /\ 18.5 <= st <= 21.5
    /\ 0.65 <= nd <= 0.8.
Proof.
  apply (generated_readings_ranges example_world).
  split.
  - intros k. cbn. split; [discriminate | reflexivity].
  - exists 0. split; [reflexivity | split; discriminate].
Defined.

Arguments Qabs : simpl never.

(** Case analysis on the sign under every absolute value. *)
Ltac q_abs :=
  repeat match goal with
    | H : context [Qabs _] |- _ => revert H
    end;
  repeat match goal with
    | |- context [Qabs ?x] => pattern (Qabs x); apply Qabs_case; intros
    end.

(** On generated data the derived metrics do not vary: the soil health
    score is always 100, the crop stress score always 0, the irrigation
    requirement always 0 with water stress "Low" and the Sprinkler method,
    and the soil moisture level is never "Low". *)
Theorem generated_metrics_are_constant (world : NasaRoute.World) :
  platform world ->
  let derived := NasaRoute.derived (NasaRoute.data (generated world)) in
  NasaRoute.score (NasaRoute.soilHealth derived) =n= 100
  /\ NasaRoute.moistureLevel (NasaRoute.soilHealth derived) <> "Low"%string
  /\ NasaRoute.CropStress.overallStress (NasaRoute.cropStress derived) =n= 0
  /\ NasaRoute.IrrigationNeeds.dailyRequirement
       (NasaRoute.irrigationNeeds derived) =n= 0
  /\ NasaRoute.IrrigationNeeds.weeklyRequirement
       (NasaRoute.irrigationNeeds derived) =n= 0
  /\ NasaRoute.IrrigationNeeds.waterStress (NasaRoute.irrigationNeeds derived)
     = "Low"%string
  /\ NasaRoute.IrrigationNeeds.recommendedMethod
       (NasaRoute.irrigationNeeds derived) = "Sprinkler"%string
  /\ NasaRoute.runoffRisk (NasaRoute.waterBalance derived) <> "Low"%string.
Proof.
  intros (Hdraw & s & Hs & Hs1). cbv zeta.
  pose proof (Hdraw 0%nat). pose proof (Hdraw 4%nat). pose proof (Hdraw 5%nat).
  pose proof (Hdraw 6%nat). pose proof (Hdraw 7%nat).
  cbn. rewrite Hs. cbn.
  repeat split; q_auto; try discriminate; try reflexivity; q_abs; lra.
Qed.

Lemma generated_metrics_are_constant_witness :
  let derived := NasaRoute.derived (NasaRoute.data (generated example_world)) in
  NasaRoute.score (NasaRoute.soilHealth derived) =n= 100
  /\ NasaRoute.CropStress.overallStress (NasaRoute.cropStress derived) =n= 0
  /\ NasaRoute.IrrigationNeeds.dailyRequirement
       (NasaRoute.irrigationNeeds derived) =n= 0.
Proof.
  destruct (generated_metrics_are_constant example_world example_world_platform)
    as (H1 & _ & H2 & H3 & _).
  cbv zeta. repeat split; assumption.
Defined.

Lemma generated_tests (world : NasaRoute.World) :
  platform world ->
  let d := NasaRoute.baseData (NasaRoute.data (generated world)) in
  let derived := NasaRoute.derived (NasaRoute.data (generated world)) in
  JS.gt (NasaRoute.temperature2m (NasaRoute.power d)) 28 = false
  /\ JS.gt (NasaRoute.temperature2m (NasaRoute.power d)) 30 = false
  /\ JS.lt (NasaRoute.soilMoistureRootZone (NasaRoute.smap d)) 0.25 = false
  /\ JS.gt (NasaRoute.IrrigationNeeds.dailyRequirement
              (NasaRoute.irrigationNeeds derived)) 5 = false
  /\ JS.gt (NasaRoute.IrrigationNeeds.dailyRequirement
              (NasaRoute.irrigationNeeds derived)) 3 = false
  /\ JS.gt (NasaRoute.CropStress.overallStress (NasaRoute.cropStress derived)) 50
     = false
  /\ String.eqb (NasaRoute.moistureLevel (NasaRoute.soilHealth derived)) "Low"
     = false.
Proof.
  intros (Hdraw & s & Hs & Hs1). cbv zeta.
  pose proof (Hdraw 0%nat). pose proof (Hdraw 5%nat). pose proof (Hdraw 7%nat).
  cbn. rewrite Hs. cbn.
  repeat split; q_auto; try reflexivity.
Qed.

(** On generated data no recommendation is ever produced, and the only
    insight that can appear is the one on excellent vegetation health,
    present exactly when the vegetation index exceeds 0.7. *)
Theorem generated_lists_are_degenerate (world : NasaRoute.World) :
  platform world ->
  NasaRoute.recommendations (generated world) = []
  /\ NasaRoute.insights (generated world)
     = if JS.gt (NasaRoute.ndvi (NasaRoute.modis
                   (NasaRoute.baseData (NasaRoute.data (generated world)))))
               0.7
       then ["Vegetation health is excellent - current management practices are effective"%string]
       else [].
Proof.
  intros Hw.
  destruct (generated_tests world Hw) as (H28 & H30 & Hrz & H5 & H3 & H50 & Hlow).
  set (d := NasaRoute.baseData (NasaRoute.data (generated world))) in *.
  set (derived := NasaRoute.derived (NasaRoute.data (generated world))) in *.
  change (NasaRoute.recommendations (generated world))
    with (NasaRoute.generateRecommendations d (NasaRoute.soilHealth derived)
            (NasaRoute.irrigationNeeds derived)).
  change (NasaRoute.insights (generated world))
    with (NasaRoute.generateInsights d (NasaRoute.soilHealth derived)
            (NasaRoute.irrigationNeeds derived) (NasaRoute.cropStress derived)).
  unfold NasaRoute.generateRecommendations, NasaRoute.generateInsights.
  rewrite H28, H30, Hrz, H5, H3, H50, Hlow.
  split; [reflexivity | ].
  destruct (JS.gt (NasaRoute.ndvi (NasaRoute.modis d)) 0.7); reflexivity.
Qed.

Lemma generated_lists_are_degenerate_witness :
  NasaRoute.recommendations (generated example_world) = []
  /\ NasaRoute.insights (generated example_world)
     = ["Vegetation health is excellent - current management practices are effective"%string].
Proof.
  apply (generated_lists_are_degenerate example_world example_world_platform).
Defined.

(** The drought category is classified from a draw of its own, not from
    the drought index of the same bundle, and is never "None" nor
    "Abnormally Dry": it is one of the four drought grades. *)
Theorem generated_drought_category (world : NasaRoute.World) :
  platform world ->
  let monitor :=
    NasaRoute.drought (NasaRoute.baseData (NasaRoute.data (generated world))) in
  NasaRoute.droughtIndex monitor
  = Num (0.3 + NasaRoute.Math_random world 13 * 0.4)
  /\ NasaRoute.droughtCategory monitor
     = NasaRoute.getDroughtCategory
         (Num (0.3 + NasaRoute.Math_random world 14 * 0.4))
  /\ In (NasaRoute.droughtCategory monitor)
       ["Moderate Drought"; "Severe Drought"; "Extreme Drought";
        "Exceptional Drought"]%string.
Proof.
  intros (Hdraw & _). cbv zeta. pose proof (Hdraw 14%nat).
  cbn. split; [reflexivity | split; [reflexivity | ]].
  unfold NasaRoute.getDroughtCategory. cbn. q_auto; tauto.
Qed.

Lemma generated_drought_category_witness :
  In (NasaRoute.droughtCategory
        (NasaRoute.drought
           (NasaRoute.baseData (NasaRoute.data (generated example_world)))))
     ["Moderate Drought"; "Severe Drought"; "Extreme Drought";
      "Exceptional Drought"]%string.
Proof.
  apply (generated_drought_category example_world example_world_platform).
Defined.

(** ** The simulation on the bundle of its own endpoint *)

Lemma endpoint_bundle_paths (world : NasaRoute.World) :
  let d := NasaRoute.baseData (NasaRoute.data (generated world)) in
  endpoint_bundle world ?. Json.data ?. Json.power ?. Json.temperature2m
  = NasaRoute.reading_of (NasaRoute.temperature2m (NasaRoute.power d))
  /\ endpoint_bundle world ?. Json.data ?. Json.power ?. Json.precipitation
     = NasaRoute.reading_of (NasaRoute.precipitation (NasaRoute.power d))
  /\ endpoint_bundle world ?. Json.data ?. Json.smap ?. Json.soilMoistureRootZone
     = NasaRoute.reading_of (NasaRoute.soilMoistureRootZone (NasaRoute.smap d))
  /\ endpoint_bundle world ?. Json.data ?. Json.modis ?. Json.ndvi
     = NasaRoute.reading_of (NasaRoute.ndvi (NasaRoute.modis d))
  /\ endpoint_bundle world ?. Json.data ?. Json.drought ?. Json.droughtCategory
     = Some (NasaRoute.droughtCategory (NasaRoute.drought d)).
Proof.
  cbv zeta. repeat split.
Qed.

Lemma generated_category_is_a_grade (world : NasaRoute.World) :
  platform world ->
  NasaRoute.droughtCategory
    (NasaRoute.drought (NasaRoute.baseData (NasaRoute.data (generated world))))
  <> "None"%string.
Proof.
  intros (Hdraw & _). pose proof (Hdraw 14%nat).
  cbn. unfold NasaRoute.getDroughtCategory. cbn. q_auto; discriminate.
Qed.

Lemma drought_insight_emitted (choices : PlayerChoices) (nasaData : any)
  (scores : Scores.t) (category : string) :
  nasaData ?. Json.data ?. Json.drought ?. Json.droughtCategory = Some category ->
  category <> "None"%string ->
  exists l,
    generateComprehensiveInsights choices nasaData scores = Normal l
    /\ In (drought_message category) l.
Proof.
  unfold generateComprehensiveInsights, droughtCategory_of.
  destruct nasaData as [n | ]; [ | discriminate].
  cbn [chain]. destruct (Json.data n) as [d | ]; [ | discriminate].
  cbn [chain]. destruct (Json.drought d) as [dr | ]; [ | discriminate].
  cbn [chain bind]. intros -> Hc. apply String.eqb_neq in Hc.
  cbn [differs_from_None]. rewrite Hc. cbn [negb bind interpolate].
  field_cases; eexists; (split; [reflexivity | ]);
    unfold push, drought_message; cbn; tauto.
Qed.

(** On the bundle of its own endpoint the simulation always returns, and
    its insights always hold the drought insight, naming one of the four
    drought grades. *)
Theorem endpoint_bundle_always_reports_drought (world : NasaRoute.World)
  (choices : PlayerChoices) :
  platform world ->
  exists r category,
    runComprehensiveSimulation choices (endpoint_bundle world) = Normal r
    /\ category <> "None"%string
    /\ In (drought_message category) (insights r).
Proof.
  intros Hw.
  destruct (endpoint_bundle_paths world) as (_ & _ & _ & _ & Hcat).
  pose proof (generated_category_is_a_grade world Hw) as Hgrade.
  destruct (drought_insight_emitted choices (endpoint_bundle world)
              (scores_of choices (endpoint_bundle world)) _ Hcat Hgrade)
    as (l & Hl & Hin).
  destruct (simulation_returns choices (endpoint_bundle world)) as [r Hr].
  - apply endpoint_bundle_has_drought_section. reflexivity.
  - exists r. eexists. split; [exact Hr | ]. split; [exact Hgrade | ].
    destruct (simulation_lists _ _ _ Hr) as [Hi _].
    rewrite Hl in Hi. injection Hi as <-. exact Hin.
Qed.

Lemma endpoint_bundle_always_reports_drought_witness :
  exists r category,
    runComprehensiveSimulation example_choices (endpoint_bundle example_world)
    = Normal r
    /\ category <> "None"%string
    /\ In (drought_message category) (insights r).
Proof.
  apply (endpoint_bundle_always_reports_drought example_world example_choices
           example_world_platform).
Defined.

(** On the bundle of its own endpoint the irrigation efficiency is always
    0.8, the root-zone reading never being below 0.28: the yield boost is
    min(irrigation x 1.6, 20). *)
Theorem endpoint_bundle_irrigation_efficiency (world : NasaRoute.World)
  (irrigation : Q) :
  platform world -> 0 <= irrigation ->
  IrrigationImpact.yieldBoost
    (calculateIrrigationImpact irrigation (endpoint_bundle world))
  =n= Num (Qmin (irrigation * 1.6) 20).
Proof.
  intros (Hdraw & _) Hi. unfold calculateIrrigationImpact.
  destruct (endpoint_bundle_paths world) as (_ & _ & -> & _).
  pose proof (Hdraw 5%nat). unfold Qmin.
  cbn. q_auto.
Qed.

Lemma endpoint_bundle_irrigation_efficiency_witness :
  IrrigationImpact.yieldBoost
    (calculateIrrigationImpact 5 (endpoint_bundle example_world))
  =n= Num (Qmin (5 * 1.6) 20).
Proof.
  apply (endpoint_bundle_irrigation_efficiency example_world 5
           example_world_platform).
  vm_compute. discriminate.
Defined.

(** ** The simulation endpoint as a whole *)

Lemma simulation_of_same_farm (c c' : PlayerChoices) (nasaData : any) :
  same_farm c c' ->
  runComprehensiveSimulation c nasaData = runComprehensiveSimulation c' nasaData.
Proof.
  intros (Hi & Hf & Hl & Hc & Hs).
  unfold runComprehensiveSimulation, calculateSustainabilityScore,
    calculateSoilHealthScore, calculateCarbonFootprint,
    calculateEconomicViability, generateComprehensiveInsights,
    generateDetailedRecommendations, generateComparisonData, analyzeSoilHealth.
  rewrite Hi, Hf, Hl, Hc, Hs. reflexivity.
Qed.

Lemma or_string_default (x : option string) (d : string) :
  or_string (Some (SimulateRoute.default x d)) d = or_string x d.
Proof.
  destruct x as [[ | a x] | ]; cbn; try reflexivity. now destruct d.
Qed.

(** Crop and soil are optional and the farming method is ignored: two
    bodies with the same three quantities get the same outcome when their
    crops agree after defaulting an omitted or empty crop to Corn, and
    their soils after defaulting to Loam, whatever their farming
    methods. *)
Theorem omitted_fields_default
  (JSON_parse : string -> completion (option PlayerChoices))
  (nasa : completion any) (text text' : string) (c c' : PlayerChoices) :
  JSON_parse text = Normal (Some c) ->
  JSON_parse text' = Normal (Some c') ->
  same_farm c c' ->
  POST JSON_parse nasa {| SimulateRoute.body := Some text |}
  = POST JSON_parse nasa {| SimulateRoute.body := Some text' |}.
Proof.
  intros H H' (Hi & Hf & Hl & Hc & Hs).
  unfold POST, request_json. cbn [SimulateRoute.body].
  rewrite H, H'. cbn [bind]. f_equal.
  destruct nasa as [n | e]; cbn [bind try_catch]; [ | reflexivity].
  match goal with
  | |- try_catch (bind (runComprehensiveSimulation ?a _) _) _
       = try_catch (bind (runComprehensiveSimulation ?b _) _) _ =>
      rewrite (simulation_of_same_farm a b)
  end; [reflexivity | ].
  unfold same_farm. cbn [irrigationMmPerDay fertilizerKgPerHa
    livestockDensityPerHa cropType soilType].
  rewrite !or_string_default. auto.
Qed.

(** The handler rejects only when the body cannot be read as JSON; every
    other request is answered, with 400 and the missing-body error, with
    500 and the simulation error, or with 200 and a result, the payload
    holding an error field exactly when the status is not 200. *)
Theorem simulation_endpoint_outcomes
  (JSON_parse : string -> completion (option PlayerChoices))
  (nasa : completion any) (request : SimulateRoute.Request) :
  (forall e,
     POST JSON_parse nasa request = Throw e
     <-> request_json JSON_parse request = Throw e)
  /\ (forall response,
        POST JSON_parse nasa request = Normal response ->
        (status response = 400%Z
         /\ json response = ErrorPayload "Missing request body" None)
        \/ (status response = 500%Z
            /\ exists e, json response = ErrorPayload "Simulation failed" (Some e))
        \/ (status response = 200%Z
            /\ exists result, json response = ResultPayload result)).
Proof.
  unfold POST. destruct (request_json JSON_parse request) as [[c | ] | e'];
    cbn [bind].
  - split; [intros e; split; discriminate | ].
    intros response H. injection H as <-. right.
    destruct nasa as [n | e]; cbn [bind try_catch]; [ | left; cbn; eauto].
    match goal with
    | |- context [runComprehensiveSimulation ?a n] =>
        destruct (runComprehensiveSimulation a n) as [r | e]
    end; cbn [bind try_catch]; [right | left]; cbn; eauto.
  - split; [intros e; split; discriminate | ].
    intros response H. injection H as <-. left. cbn. auto.
  - split; [ | discriminate].
    intros e; split; intros H; injection H as <-; reflexivity.
Qed.

(** No partial results: when the body parses to choices, a failed fetch
    of the environmental data, an answer without a drought section and
    any error answer of the environmental endpoint all end in the 500
    answer, whatever the choices. *)
Theorem simulation_aborts_without_environment
  (JSON_parse : string -> completion (option PlayerChoices))
  (text : string) (choices : PlayerChoices) :
  JSON_parse text = Normal (Some choices) ->
  let request := {| SimulateRoute.body := Some text |} in
  (forall e,
     POST JSON_parse (Throw e) request
     = Normal (Response_json (ErrorPayload "Simulation failed" (Some e)) 500))
  /\ (forall nasaData,
        ~ has_drought_section nasaData ->
        POST JSON_parse (Normal nasaData) request
        = Normal (Response_json
                    (ErrorPayload "Simulation failed" (Some TypeError)) 500))
  /\ (forall answer : Response NasaRoute.Bundle.t,
        has_error_field answer = true ->
        POST JSON_parse (Normal (NasaRoute.parsed answer)) request
        = Normal (Response_json
                    (ErrorPayload "Simulation failed" (Some TypeError)) 500)).
Proof.
  intros H. cbv zeta.
  assert (aborts : forall nasaData,
    ~ has_drought_section nasaData ->
    POST JSON_parse (Normal nasaData) {| SimulateRoute.body := Some text |}
    = Normal (Response_json
                (ErrorPayload "Simulation failed" (Some TypeError)) 500)).
  { intros n Hn. unfold POST, request_json. cbn [SimulateRoute.body].
    rewrite H. cbn [bind]. now rewrite simulation_throws. }
  split; [ | split; [exact aborts | ]].
  - intros e. unfold POST, request_json. cbn [SimulateRoute.body].
    now rewrite H.
  - intros answer Herr. apply aborts.
    unfold NasaRoute.parsed, has_error_field in *.
    destruct (json answer); [ | discriminate].
    intros (n & d & dr & Hn & Hd & _). injection Hn as <-. discriminate Hd.
Qed.

Lemma omitted_fields_default_witness :
  POST parse_default_body (fetch_nasaData example_world)
    {| SimulateRoute.body := Some bare_body |}
  = POST parse_default_body (fetch_nasaData example_world)
      {| SimulateRoute.body := Some default_body |}.
Proof.
  apply (omitted_fields_default parse_default_body (fetch_nasaData example_world)
           bare_body default_body bare_choices example_choices);
    [reflexivity | reflexivity | repeat split].
Defined.

Lemma simulation_aborts_without_environment_witness :
  POST parse_default_body (Normal no_data) default_request
  = Normal (Response_json
              (ErrorPayload "Simulation failed" (Some TypeError)) 500).
Proof.
  destruct (simulation_aborts_without_environment parse_default_body
              default_body example_choices) as (_ & H & _).
  - reflexivity.
  - apply H. intros (n & d & dr & Hn & Hd & _).
    injection Hn as <-. discriminate Hd.
Defined.

Lemma Qle_bool_lt (a b : Q) : b < a -> Qle_bool a b = false.
Proof.
  intros H. destruct (Qle_bool a b) eqn:E; [ | reflexivity].
  apply Qle_bool_iff in E. lra.
Qed.

Lemma Qeq_bool_lt (a b : Q) : b < a -> Qeq_bool a b = false.
Proof.
  intros H. destruct (Qeq_bool a b) eqn:E; [ | reflexivity].
  apply Qeq_bool_iff in E. lra.
Qed.

Lemma endpoint_bundle_readings (world : NasaRoute.World) :
  platform world ->
  exists t p m v : Q,
    endpoint_bundle world ?. Json.data ?. Json.power ?. Json.temperature2m
    = Some t
    /\ endpoint_bundle world ?. Json.data ?. Json.power ?. Json.precipitation
       = Some p
    /\ endpoint_bundle world ?. Json.data ?. Json.smap ?. Json.soilMoistureRootZone
       = Some m
    /\ endpoint_bundle world ?. Json.data ?. Json.modis ?. Json.ndvi = Some v
    /\ 17.5 <= t <= 27.5
    /\ 15.2 <= p < 25.2
    /\ 0.28 <= m < 0.36
    /\ 0.65 <= v < 0.8.
Proof.
  intros (Hdraw & s & Hs & Hs1).
  pose proof (Hdraw 0%nat). pose proof (Hdraw 5%nat). pose proof (Hdraw 7%nat).
  cbn. rewrite Hs. cbn.
  do 4 eexists. do 4 (split; [reflexivity | ]).
  repeat split; lra.
Qed.

(** The default request of the results page - 5 mm/day, 15 kg/ha, 2
    animals per hectare, Corn on Loam - is answered 200 whenever the fetch
    of the environmental endpoint succeeds, and then, whatever the draws,
    the result shows a yield score of 103 or 123, sustainability 100,
    soil health 76 or 81, water efficiency 100, carbon footprint 293,
    economic viability 0 and no recommendation; when the fetch fails the
    request is answered 500 with the error "Simulation failed". *)
Theorem default_request_result
  (JSON_parse : string -> completion (option PlayerChoices))
  (world : NasaRoute.World) (nasa : completion any) :
  JSON_parse default_body = Normal (Some example_choices) ->
  platform world ->
  (nasa = Normal (endpoint_bundle world) ->
   exists result,
     POST JSON_parse nasa default_request
     = Normal (Response_json (ResultPayload result) 200)
     /\ (yieldScore result = 103 \/ yieldScore result = 123)
     /\ sustainabilityScore result = 100
     /\ (soilHealthScore result = 76 \/ soilHealthScore result = 81)
     /\ waterEfficiencyScore result = 100
     /\ carbonFootprint result = 293
     /\ economicViability result = 0
     /\ recommendations result = [])
  /\ (forall e,
        nasa = Throw e ->
        POST JSON_parse nasa default_request
        = Normal (Response_json
                    (ErrorPayload "Simulation failed" (Some e)) 500)).
Proof.
  intros Hparse Hw. split.
  2: { intros e ->. unfold POST, request_json, default_request.
       cbn [SimulateRoute.body]. now rewrite Hparse. }
  intros ->.
  destruct (endpoint_bundle_readings world Hw)
    as (t & p & m & v & Ht & Hp & Hm & Hv & Ht' & Hp' & Hm' & Hv').
  unfold POST, request_json, default_request.
  cbn [SimulateRoute.body]. rewrite Hparse. cbn [bind].
  match goal with
  | |- context [runComprehensiveSimulation ?c ?n] =>
      destruct (simulation_returns c n) as [r Hr];
      [apply endpoint_bundle_has_drought_section; reflexivity | ];
      rewrite Hr; pose proof (simulation_scores c n r Hr) as Hscores;
      pose proof (simulation_lists c n r Hr) as [_ Hrecs]
  end.
  cbn [bind try_catch]. exists r. split; [reflexivity | ].
  destruct Hscores as (Hy & Hsu & Hso & Hwa & Hca & Hec).
  rewrite Hy, Hsu, Hso, Hwa, Hca, Hec, Hrecs.
  unfold generateDetailedRecommendations, scores_of, yield_before_rounding,
    calculateEconomicViability, calculateCarbonFootprint,
    calculateWaterEfficiencyScore, calculateSoilHealthScore,
    calculateSustainabilityScore, calculateBaseYield, calculateIrrigationImpact,
    calculateFertilizerImpact, calculateLivestockImpact.
  cbn [irrigationMmPerDay fertilizerKgPerHa livestockDensityPerHa cropType
       soilType SimulateRoute.default or_string Scores.waterEfficiencyScore
       IrrigationImpact.yieldBoost FertilizerImpact.yieldBoost
       LivestockImpact.yieldReduction example_choices].
  rewrite Ht, Hp, Hm, Hv.
  cbn [ToNumber_reading or_number JS.truthy JS.gt JS.lt].
  clear Hy Hsu Hso Hwa Hca Hec Hrecs Hr Ht Hp Hm Hv.
  destruct Ht' as [? ?], Hp' as [? ?], Hm' as [? ?], Hv' as [? ?].
  rewrite (Qeq_bool_lt m 0), (Qeq_bool_lt p 0) by lra.
  cbn [negb JS.gt JS.lt JS.div].
  rewrite (Qle_bool_lt m 0.25) by lra.
  replace (Qle_bool 0.2 m) with true by (symmetry; apply Qle_bool_iff; lra).
  change (Qeq_bool 30 0) with false. cbv iota.
  cbn [JS.sub JS.add JS.neg Math.abs JS.lt].
  generalize (Qabs (5 + - (p / 30))). intros a.
  destruct (Qle_bool t 25), (Qle_bool m 0.3), (Qle_bool v 0.7), (Qle_bool 2 a);
    vm_compute; auto 10.
Qed.

Lemma default_request_result_witness :
  (exists result,
     POST parse_default_body (Normal (endpoint_bundle example_world))
       default_request
     = Normal (Response_json (ResultPayload result) 200)
     /\ (yieldScore result = 103 \/ yieldScore result = 123)
     /\ sustainabilityScore result = 100)
  /\ POST parse_default_body (Throw NetworkError) default_request
     = Normal (Response_json
                 (ErrorPayload "Simulation failed" (Some NetworkError)) 500).
Proof.
  split.
  - destruct (default_request_result parse_default_body example_world
                (Normal (endpoint_bundle example_world)))
      as [H _]; [reflexivity | exact example_world_platform | ].
    destruct (H eq_refl) as (r & Hr & Hy & Hs & _).
    exists r. repeat split; assumption.
  - apply (default_request_result parse_default_body example_world
             (Throw NetworkError));
      [reflexivity | exact example_world_platform | reflexivity].
Defined.
